(** * KPI front-end: project-view registries, the bulk-edit submissions form
      and the Cypress [contains] command

    A shallow embedding of
    - [jsapp/js/projects/projectViews/constants.ts] (the static registries),
    - [jsapp/js/components/modalForms/bulkEditSubmissionsForm.es6]
      (the bulk-edit modal form), and
    - [cypress/cypress/support/commands.js] (the overwritten [contains]),
    together with the properties the specification states about them. *)

From Stdlib Require Import ZArith Ascii String List Sorting.Sorted.
From stdpp Require Import base option list gmap strings pretty fin_maps.

Local Open Scope string_scope.

(** ** JavaScript values shared by the three source files *)

(** Primitive values.  Numbers are the integral ones (counts, ids); on this
    type JavaScript's [===] and the SameValueZero comparison used by [Map]
    both coincide with Rocq's equality. *)
Inductive JSValue : Type :=
  | VUndefined
  | VNull
  | VBool (b : bool)
  | VNumber (n : Z)
  | VString (s : string).

#[global] Instance JSValue_eq_dec : EqDecision JSValue.
Proof. solve_decision. Defined.

(** The [typeof] operator. *)
Definition typeof (v : JSValue) : string :=
  match v with
  | VUndefined => "undefined"
  | VNull => "object"
  | VBool _ => "boolean"
  | VNumber _ => "number"
  | VString _ => "string"
  end.

(** *** Plain objects used as dictionaries

    A plain object has its own properties and a prototype: [Object.prototype]
    for an object literal, a clone or a parsed response, [null] once the
    [__proto__] setter was given [null].  The own properties of the objects
    of this development hold primitives. *)

Inductive Prototype : Type :=
  | Object_prototype
  | null_prototype.

#[global] Instance Prototype_eq_dec : EqDecision Prototype.
Proof. solve_decision. Defined.

Record PlainObject : Type := {
  proto : Prototype;
  own : gmap string JSValue;
}.

(** An object that came as a literal or out of a parsed response. *)
Definition plain (o : gmap string JSValue) : PlainObject :=
  {| proto := Object_prototype; own := o |}.

(** What a property read can give: a primitive, [Object.prototype] itself
    (the value of the inherited [__proto__] accessor), or one of the
    functions [Object.prototype] holds. *)
Inductive AnyValue : Type :=
  | Primitive (v : JSValue)
  | ObjectPrototype
  | ObjectMethod (member : string).

Coercion Primitive : JSValue >-> AnyValue.

#[global] Instance AnyValue_eq_dec : EqDecision AnyValue.
Proof. solve_decision. Defined.

(** The function-valued properties of [Object.prototype]. *)
Definition Object_prototype_methods : list string :=
  ["constructor"; "__defineGetter__"; "__defineSetter__"; "hasOwnProperty";
   "__lookupGetter__"; "__lookupSetter__"; "isPrototypeOf";
   "propertyIsEnumerable"; "toString"; "valueOf"; "toLocaleString"].

(** The [typeof] operator on any value. *)
Definition typeof_any (v : AnyValue) : string :=
  match v with
  | Primitive p => typeof p
  | ObjectPrototype => "object"
  | ObjectMethod _ => "function"
  end.

(** The largest magnitude up to which every integer is a number printed
    digit by digit: 2^53. *)
Definition MAX_SAFE : Z := 9007199254740992.

(** [String(v)], also the conversion of [v] to a property key.  Left
    undefined where the text depends on more than the model holds: an
    integer beyond [MAX_SAFE] (not every such integer is a number, and those
    that are print rounded or with an exponent), and a built-in function
    (its text is up to the engine). *)
Definition String_of (v : AnyValue) : option string :=
  match v with
  | Primitive VUndefined => Some "undefined"
  | Primitive VNull => Some "null"
  | Primitive (VBool true) => Some "true"
  | Primitive (VBool false) => Some "false"
  | Primitive (VNumber n) =>
      if bool_decide (- MAX_SAFE <= n <= MAX_SAFE)%Z then Some (pretty n)
      else None
  | Primitive (VString s) => Some s
  | ObjectPrototype => Some "[object Object]"
  | ObjectMethod _ => None
  end.

(** The truth value of [v] in a condition. *)
Definition truthy (v : AnyValue) : bool :=
  match v with
  | Primitive VUndefined | Primitive VNull => false
  | Primitive (VBool b) => b
  | Primitive (VNumber n) => negb (n =? 0)%Z
  | Primitive (VString s) => negb (bool_decide (s = ""))
  | ObjectPrototype | ObjectMethod _ => true
  end.

(** What a name that is no own property reads through the prototype. *)
Definition inherited (p : Prototype) (k : string) : AnyValue :=
  match p with
  | null_prototype => VUndefined
  | Object_prototype =>
      if decide (k = "__proto__") then ObjectPrototype
      else if bool_decide (k ∈ Object_prototype_methods) then ObjectMethod k
      else VUndefined
  end.

(** [o[k]]: the own property if there is one, else what the prototype
    gives, else [undefined]. *)
Definition obj_get (o : PlainObject) (k : string) : AnyValue :=
  match own o !! k with
  | Some v => Primitive v
  | None => inherited (proto o) k
  end.

(** [o[k] = v] for a primitive [v].  Under the name [__proto__] an object
    that inherits the accessor of [Object.prototype] and has no own property
    of that name runs the setter: [null] becomes the prototype, any other
    primitive is ignored, and no own property is made.  Every other
    assignment makes or updates an own property. *)
Definition obj_set (o : PlainObject) (k : string) (v : JSValue) : PlainObject :=
  if decide (k = "__proto__") then
    match own o !! k, proto o with
    | None, Object_prototype =>
        {| proto := if decide (v = VNull) then null_prototype
                    else Object_prototype;
           own := own o |}
    | _, _ => {| proto := proto o; own := <[k := v]> (own o) |}
    end
  else {| proto := proto o; own := <[k := v]> (own o) |}.

(** [delete o[k]]: own properties only. *)
Definition obj_delete (o : PlainObject) (k : string) : PlainObject :=
  {| proto := proto o; own := delete k (own o) |}.

(** An object literal keeps its keys in the order they are written. *)
Fixpoint literal_get {A : Type} (k : string) (o : list (string * A)) : option A :=
  match o with
  | [] => None
  | (k', a) :: o' => if decide (k' = k) then Some a else literal_get k o'
  end.

Definition literal_keys {A : Type} (o : list (string * A)) : list string :=
  map fst o.

(** [String.prototype.includes]. *)
Fixpoint includes (s pat : string) : bool :=
  if String.prefix pat s then true
  else match s with
       | EmptyString => false
       | String _ s' => includes s' pat
       end.

(** Replacement of the first occurrence of [pat] in [s]: what
    [String.prototype.replace] does with a string pattern when the
    replacement holds no [$] pattern. *)
Fixpoint replace_first (s pat rep : string) : string :=
  if String.prefix pat s then
    rep +:+ String.substring (String.length pat)
                             (String.length s - String.length pat) s
  else match s with
       | EmptyString => EmptyString
       | String c s' => String c (replace_first s' pat rep)
       end.

(** The one-character string holding a double quote. *)
Definition dquote : string := String "034"%char EmptyString.

(** ** projectViews/constants.ts *)

Module ProjectViews.

Record FilterConditionDefinition : Type := {
  fc_name : string;
  fc_label : string;
  requiresValue : bool;
  filterQuery : string;
}.

Record ProjectFieldDefinition : Type := {
  pf_name : string;
  pf_label : string;
  apiPropertyName : string;
  filterable : bool;
  orderable : bool;
}.

(** The members of the union type [FilterConditionName]. *)
Definition FilterConditionName : list string :=
  ["contains"; "doesNotContain"; "endsWith"; "is"; "isEmpty"; "isNot";
   "isNotEmpty"; "startsWith"].

(** The members of the union type [ProjectFieldName]. *)
Definition ProjectFieldName : list string :=
  ["countries"; "dateDeployed"; "dateModified"; "description"; "languages";
   "name"; "ownerEmail"; "ownerFullName"; "ownerOrganization";
   "ownerUsername"; "sector"; "status"; "submissions"].

Definition DEFAULT_PROJECT_FIELDS : list string :=
  ["countries"; "dateModified"; "dateDeployed"; "name"; "ownerUsername";
   "status"; "submissions"].

Section Registries.

(** The translation function [t] of the application. *)
Variable t : string -> string.

Definition FILTER_CONDITIONS : list (string * FilterConditionDefinition) :=
  [ ("is",
     {| fc_name := "is"; fc_label := t "Is"; requiresValue := true;
        filterQuery := "<field>__iexact:<term>" |});
    ("isNot",
     {| fc_name := "isNot"; fc_label := t "Is not"; requiresValue := true;
        filterQuery := "NOT <field>__iexact:<term>" |});
    ("contains",
     {| fc_name := "contains"; fc_label := t "Contains"; requiresValue := true;
        filterQuery := "<field>__icontains:<term>" |});
    ("doesNotContain",
     {| fc_name := "doesNotContain"; fc_label := t "Does not contain";
        requiresValue := true;
        filterQuery := "NOT <field>__icontains:<term>" |});
    ("startsWith",
     {| fc_name := "startsWith"; fc_label := t "Starts with";
        requiresValue := true;
        filterQuery := "<field>__istartswith:<term>" |});
    ("endsWith",
     {| fc_name := "endsWith"; fc_label := t "Ends with";
        requiresValue := true;
        filterQuery := "<field>__iendswith:<term>" |});
    ("isEmpty",
     {| fc_name := "isEmpty"; fc_label := t "Is empty";
        requiresValue := false;
        filterQuery := "<field>:" +:+ dquote +:+ dquote |});
    ("isNotEmpty",
     {| fc_name := "isNotEmpty"; fc_label := t "Is not empty";
        requiresValue := false;
        filterQuery := "NOT <field>:" +:+ dquote +:+ dquote |}) ].

Definition PROJECT_FIELDS : list (string * ProjectFieldDefinition) :=
  [ ("name",
     {| pf_name := "name"; pf_label := t "Project name";
        apiPropertyName := "name"; filterable := true; orderable := true |});
    ("description",
     {| pf_name := "description"; pf_label := t "Description";
        apiPropertyName := "settings__description";
        filterable := true; orderable := true |});
    ("status",
     {| pf_name := "status"; pf_label := t "Status";
        apiPropertyName := "_deployment_data";
        filterable := true; orderable := true |});
    ("ownerUsername",
     {| pf_name := "ownerUsername"; pf_label := t "Owner username";
        apiPropertyName := "owner__username";
        filterable := true; orderable := true |});
    ("ownerFullName",
     {| pf_name := "ownerFullName"; pf_label := t "Owner full name";
        apiPropertyName := "owner__extra_details__data__name";
        filterable := true; orderable := true |});
    ("ownerEmail",
     {| pf_name := "ownerEmail"; pf_label := t "Owner email";
        apiPropertyName := "owner__email";
        filterable := true; orderable := true |});
    ("ownerOrganization",
     {| pf_name := "ownerOrganization"; pf_label := t "Owner organization";
        apiPropertyName := "owner__extra_details__data__organization";
        filterable := true; orderable := true |});
    ("dateModified",
     {| pf_name := "dateModified"; pf_label := t "Date modified";
        apiPropertyName := "date_modified__date";
        filterable := true; orderable := true |});
    ("dateDeployed",
     {| pf_name := "dateDeployed"; pf_label := t "Date deployed";
        apiPropertyName := "date_deployed__date";
        filterable := false; orderable := false |});
    ("sector",
     {| pf_name := "sector"; pf_label := t "Sector";
        apiPropertyName := "settings__sector";
        filterable := true; orderable := true |});
    ("countries",
     {| pf_name := "countries"; pf_label := t "Countries";
        apiPropertyName := "settings__country_codes[]";
        filterable := true; orderable := true |});
    ("languages",
     {| pf_name := "languages"; pf_label := t "Languages";
        apiPropertyName := "summary__languages[]";
        filterable := true; orderable := true |});
    ("submissions",
     {| pf_name := "submissions"; pf_label := t "Submissions";
        apiPropertyName := "deployment__submission_count";
        filterable := false; orderable := false |}) ].

Definition HOME_VIEW : string * string :=
  ("kobo_my_projects", t "My Projects").

End Registries.

(** EXCEPTION: the [status] field is combined from different pieces of data
    thus it needs these queries. *)
Definition STATUS_FILTER_QUERIES : list (string * string) :=
  [ ("draft", "_deployment_data__iexact:{}");
    ("deployed", "_deployment_data__active:true");
    ("archived", "_deployment_data__active:false") ].

(** EXCEPTION: Dates are special pieces of data and they can be filtered in
    a meaningful way by using these queries. *)
Definition DATE_FILTER_QUERIES : list (string * string) :=
  [ ("greaterThan", "<field>__gt:<YYYY-MM-DD>");
    ("greaterOrEqualThan", "<field>__gte:<YYYY-MM-DD>");
    ("lessThan", "<field>__lt:<YYYY-MM-DD>");
    ("lessOrEqualThan", "<field>__lte:<YYYY-MM-DD>");
    ("partOf", "<field>__regex:<YYYY-MM>") ].

End ProjectViews.

(** ** modalForms/bulkEditSubmissionsForm.es6 *)

Module BulkEdit.

(** We need an override value that would mean "no answer" and that would be
    different than "no override answer" (de facto [undefined]). *)
Definition EMPTY_VALUE : JSValue := VNull.

(** One element of [question.selectedData]: [{sid, value}]. *)
Record SelectedDatum : Type := {
  sid : AnyValue;
  value : AnyValue;
}.

(** A question of the flat questions list, as the form reads it. *)
Record Question : Type := {
  name : string;
  label : string;
  type : string;
  parents : list string;
  isRequired : bool;
  selectedData : list SelectedDatum;
}.

(** [this.state] of [BulkEditSubmissionsForm].  The object in
    [state.overrides] is kept as its own properties, [overrides], and its
    prototype, [overridesProto]. *)
Record State : Type := {
  isPending : bool;
  overrides : gmap string JSValue;
  overridesProto : Prototype;
  selectedQuestion : option Question;
  selectedQuestionOverride : AnyValue;
  filterByName : string;
  filterByValue : string;
}.

(** [this.state.overrides] as an object. *)
Definition overridesObject (s : State) : PlainObject :=
  {| proto := overridesProto s; own := overrides s |}.

(** The props the form's handlers read. *)
Record Props : Type := {
  asset_uid : string;
  totalSubmissions : nat;
  selectedSubmissions : list string;
}.

(** The two child actions of [actions.submissions.bulkPatchValues]. *)
Inductive ActionEvent : Type :=
  | bulkPatchValues_completed
  | bulkPatchValues_failed.

(** The bound methods the form registers as listeners. *)
Inductive Callback : Type :=
  | onBulkPatchValuesCompleted_clb
  | onBulkPatchValuesFailed_clb.

(** Calls that leave the component, in the order they are made.  Of the
    object passed to [bulkPatchValues] the call keeps the own properties. *)
Inductive Effect : Type :=
  | onSetModalTitle (title : string)
  | onModalClose
  | bulkPatchValues (uid : string) (submissions : list string)
                    (data : gmap string JSValue)
  | unlistenerCalled (h : positive).

(** The component instance together with the part of its environment the
    handlers touch. *)
Record World : Type := {
  state : State;
  unlisteners : list positive;
  listeners : gmap positive (ActionEvent * Callback);
  effects : list Effect;
}.

(** *** A state monad with [TypeError] *)

Inductive Result (A : Type) : Type :=
  | Return (a : A) (w : World)
  | TypeError (w : World).
Arguments Return {A} a w.
Arguments TypeError {A} w.

Definition M (A : Type) : Type := World -> Result A.

Definition ret {A : Type} (a : A) : M A := fun w => Return a w.

Definition bind {A B : Type} (m : M A) (k : A -> M B) : M B :=
  fun w => match m w with
           | Return a w' => k a w'
           | TypeError w' => TypeError w'
           end.

Definition throw {A : Type} : M A := fun w => TypeError w.

Notation "'do' x <- m ; k" := (bind m (fun x => k))
  (at level 10, x name, m at level 100, k at level 200).
Notation "m ;; k" := (bind m (fun _ => k))
  (at level 100, k at level 200, right associativity).

Definition getState : M State := fun w => Return (state w) w.

Definition modifyState (f : State -> State) : M unit :=
  fun w => Return tt {| state := f (state w); unlisteners := unlisteners w;
                        listeners := listeners w; effects := effects w |}.

Definition emit (e : Effect) : M unit :=
  fun w => Return tt {| state := state w; unlisteners := unlisteners w;
                        listeners := listeners w;
                        effects := effects w ++ [e] |}.

(** [Array.prototype.forEach]; the callbacks passed here leave the array
    itself alone. *)
Fixpoint forEach {A : Type} (l : list A) (f : A -> M unit) : M unit :=
  match l with
  | [] => ret tt
  | x :: l' => f x ;; forEach l' f
  end.

(** *** [setState] with each partial state the form passes

    The updates of one handler write different fields, and no handler reads
    a field after writing it, so applying them one after the other gives
    the state the component ends with. *)

Definition set_isPending (b : bool) (s : State) : State :=
  {| isPending := b; overrides := overrides s;
     overridesProto := overridesProto s;
     selectedQuestion := selectedQuestion s;
     selectedQuestionOverride := selectedQuestionOverride s;
     filterByName := filterByName s; filterByValue := filterByValue s |}.

Definition set_overrides (o : PlainObject) (s : State) : State :=
  {| isPending := isPending s; overrides := own o;
     overridesProto := proto o;
     selectedQuestion := selectedQuestion s;
     selectedQuestionOverride := selectedQuestionOverride s;
     filterByName := filterByName s; filterByValue := filterByValue s |}.

Definition set_selectedQuestionOverride (v : AnyValue) (s : State) : State :=
  {| isPending := isPending s; overrides := overrides s;
     overridesProto := overridesProto s;
     selectedQuestion := selectedQuestion s;
     selectedQuestionOverride := v;
     filterByName := filterByName s; filterByValue := filterByValue s |}.

Definition set_selection (q : option Question) (v : AnyValue) (s : State) : State :=
  {| isPending := isPending s; overrides := overrides s;
     overridesProto := overridesProto s;
     selectedQuestion := q;
     selectedQuestionOverride := v;
     filterByName := filterByName s; filterByValue := filterByValue s |}.

Definition set_filterByName (f : string) (s : State) : State :=
  {| isPending := isPending s; overrides := overrides s;
     overridesProto := overridesProto s;
     selectedQuestion := selectedQuestion s;
     selectedQuestionOverride := selectedQuestionOverride s;
     filterByName := f; filterByValue := filterByValue s |}.

Definition set_filterByValue (f : string) (s : State) : State :=
  {| isPending := isPending s; overrides := overrides s;
     overridesProto := overridesProto s;
     selectedQuestion := selectedQuestion s;
     selectedQuestionOverride := selectedQuestionOverride s;
     filterByName := filterByName s; filterByValue := f |}.

(** *** The listener registry of the actions

    Modelled from the spec: the action layer ([js/actions], built on the
    event-dispatch library) is outside the source files at hand.  The spec
    speaks of "mount/unmount subscription cleanup": [listen] registers a
    callback and hands back a function that, when called, removes that
    registration and nothing else. *)

Definition listen (a : ActionEvent) (clb : Callback) : M positive :=
  fun w =>
    let h := fresh (dom (listeners w)) in
    Return h {| state := state w; unlisteners := unlisteners w;
                listeners := <[h := (a, clb)]> (listeners w);
                effects := effects w |}.

Definition callUnlistener (h : positive) : M unit :=
  fun w =>
    Return tt {| state := state w; unlisteners := unlisteners w;
                 listeners := delete h (listeners w);
                 effects := effects w ++ [unlistenerCalled h] |}.

(** [this.unlisteners.push(...)]. *)
Definition push_unlisteners (hs : list positive) : M unit :=
  fun w => Return tt {| state := state w;
                        unlisteners := unlisteners w ++ hs;
                        listeners := listeners w; effects := effects w |}.

(** [lodash.clonedeep] of a dictionary of primitives: a new plain object
    with the same own entries. *)
Definition clonedeep (o : PlainObject) : PlainObject :=
  plain (list_to_map (map_to_list (own o))).

Section Form.

Variable t : string -> string.
(** [String.prototype.replace] with a string pattern:
    [String_replace s pattern replacement]. *)
Variable String_replace : string -> string -> string -> string.
Variable props : Props.

Definition EMPTY_VALUE_LABEL : string := t "n/d".
Definition MULTIPLE_VALUES_LABEL : string := t "Multiple responses".

(** The constructor's [this.state] and [this.unlisteners]. *)
Definition constructor (listeners0 : gmap positive (ActionEvent * Callback)) : World :=
  {| state := {| isPending := false; overrides := ∅;
                 overridesProto := Object_prototype;
                 selectedQuestion := None;
                 selectedQuestionOverride := VNull;
                 filterByName := ""; filterByValue := "" |};
     unlisteners := [];
     listeners := listeners0;
     effects := [] |}.

Definition setModalTitleToList : M unit :=
  emit (onSetModalTitle
    (String_replace
      (String_replace
        (t "Displaying multiple submissions (##count## selected of ##total##)")
        "##count##" (pretty (length (selectedSubmissions props))))
      "##total##" (pretty (totalSubmissions props)))).

Definition setModalTitleToQuestion (questionName : string) : M unit :=
  emit (onSetModalTitle
    (String_replace
      (String_replace
        (t ("Editing " +:+ dquote +:+ "##question##" +:+ dquote +:+
            " for ##count## submissions"))
        "##question##" questionName)
      "##count##" (pretty (length (selectedSubmissions props))))).

Definition componentDidMount : M unit :=
  do h1 <- listen bulkPatchValues_completed onBulkPatchValuesCompleted_clb;
  do h2 <- listen bulkPatchValues_failed onBulkPatchValuesFailed_clb;
  push_unlisteners [h1; h2] ;;
  setModalTitleToList.

Definition componentWillUnmount : M unit :=
  fun w => forEach (unlisteners w) callUnlistener w.

Definition onBulkPatchValuesCompleted : M unit :=
  modifyState (set_isPending false) ;;
  emit onModalClose.

Definition onBulkPatchValuesFailed : M unit :=
  modifyState (set_isPending false).

Definition onRowOverrideChange (questionName : string) (v : AnyValue) : M unit :=
  do s <- getState;
  match selectedQuestion s with
  | None => throw
  | Some q =>
      if decide (questionName = name q) then
        if decide (v = VUndefined) then
          modifyState (set_selectedQuestionOverride EMPTY_VALUE)
        else
          modifyState (set_selectedQuestionOverride v)
      else ret tt
  end.

Definition onSubmit : M unit :=
  modifyState (set_isPending true) ;;
  do s <- getState;
  emit (bulkPatchValues (asset_uid props) (selectedSubmissions props)
                        (overrides s)).

Definition onReset : M unit := modifyState (set_overrides (plain ∅)).

Definition onFilterByNameChange (newFilter : string) : M unit :=
  modifyState (set_filterByName newFilter).

Definition onFilterByValueChange (newFilter : string) : M unit :=
  modifyState (set_filterByValue newFilter).

Definition selectQuestion (question : Question) : M unit :=
  do s <- getState;
  modifyState (set_selection (Some question)
                             (obj_get (overridesObject s) (name question))) ;;
  setModalTitleToQuestion (label question).

Definition goBackToList : M unit :=
  modifyState (set_selection None VNull) ;;
  setModalTitleToList.

(** The test guarding the assignment in [saveOverride]. *)
Definition is_storable (v : AnyValue) : bool :=
  bool_decide (v = EMPTY_VALUE)
  || (bool_decide (typeof_any v = "string")
      && match v with
         | Primitive (VString s) => bool_decide (1 <= String.length s)
         | _ => false
         end).

(** The primitive behind a value that passed [is_storable]. *)
Definition stored (v : AnyValue) : JSValue :=
  match v with
  | Primitive p => p
  | _ => EMPTY_VALUE
  end.

Definition saveOverride : M unit :=
  do s <- getState;
  let newOverrides := clonedeep (overridesObject s) in
  let v := selectedQuestionOverride s in
  do newOverrides <-
    (if is_storable v then
       match selectedQuestion s with
       | None => throw
       | Some q => ret (obj_set newOverrides (name q) (stored v))
       end
     else
       match selectedQuestion s with
       | None => throw
       | Some q => ret (obj_delete newOverrides (name q))
       end);
  modifyState (set_overrides newOverrides) ;;
  goBackToList.

(** *** The event loop

    User input and action callbacks reach the component one at a time; an
    exception ends the handler and leaves the component as it was when it
    was thrown. *)

Inductive Event : Type :=
  | didMount
  | willUnmount
  | completed
  | failed
  | rowOverrideChange (questionName : string) (v : AnyValue)
  | submit
  | reset
  | filterByNameChange (newFilter : string)
  | filterByValueChange (newFilter : string)
  | select (question : Question)
  | back
  | save.

Definition handle (e : Event) : M unit :=
  match e with
  | didMount => componentDidMount
  | willUnmount => componentWillUnmount
  | completed => onBulkPatchValuesCompleted
  | failed => onBulkPatchValuesFailed
  | rowOverrideChange questionName v => onRowOverrideChange questionName v
  | submit => onSubmit
  | reset => onReset
  | filterByNameChange newFilter => onFilterByNameChange newFilter
  | filterByValueChange newFilter => onFilterByValueChange newFilter
  | select question => selectQuestion question
  | back => goBackToList
  | save => saveOverride
  end.

Definition world_of {A : Type} (r : Result A) : World :=
  match r with
  | Return _ w => w
  | TypeError w => w
  end.

Fixpoint run_events (es : list Event) (w : World) : World :=
  match es with
  | [] => w
  | e :: es' => run_events es' (world_of (handle e w))
  end.

End Form.

(** *** [BulkEditRowForm] *)

(** A JavaScript [Map] from response values to counts: its entries in
    insertion order, keys compared with SameValueZero. *)
Abbreviation JSMap := (list (AnyValue * Z)).

Fixpoint Map_get (k : AnyValue) (m : JSMap) : option Z :=
  match m with
  | [] => None
  | (k', n) :: m' => if decide (k' = k) then Some n else Map_get k m'
  end.

Definition Map_has (k : AnyValue) (m : JSMap) : bool :=
  match Map_get k m with Some _ => true | None => false end.

(** [Map.prototype.set]: an existing key keeps its position, a new key goes
    last. *)
Fixpoint Map_set (k : AnyValue) (n : Z) (m : JSMap) : JSMap :=
  match m with
  | [] => [(k, n)]
  | (k', n') :: m' =>
      if decide (k' = k) then (k', n) :: m' else (k', n') :: Map_set k n m'
  end.

(** [new Map(entries)]. *)
Definition Map_of_entries (es : list (AnyValue * Z)) : JSMap :=
  fold_left (fun m e => Map_set (fst e) (snd e) m) es [].

(** [Array.prototype.sort] with a comparator: a stable sort in which [a] is
    placed after [b] when [cmp a b > 0]. *)
Fixpoint sort_insert {A : Type} (cmp : A -> A -> Z) (x : A) (l : list A) : list A :=
  match l with
  | [] => [x]
  | y :: l' =>
      if decide (0 < cmp x y)%Z then y :: sort_insert cmp x l'
      else x :: y :: l'
  end.

Definition Array_sort {A : Type} (cmp : A -> A -> Z) (l : list A) : list A :=
  foldr (sort_insert cmp) [] l.

(** One pass of the [forEach] in [getUniqueResponses]. *)
Definition countResponse (uniqueResponses : JSMap) (item : SelectedDatum) : JSMap :=
  if Map_has (value item) uniqueResponses then
    Map_set (value item)
            (default 0%Z (Map_get (value item) uniqueResponses) + 1)%Z
            uniqueResponses
  else
    Map_set (value item) 1%Z uniqueResponses.

Definition getUniqueResponses (originalData : list SelectedDatum) : JSMap :=
  let uniqueResponses := fold_left countResponse originalData [] in
  (* sort by popularity *)
  Map_of_entries (Array_sort (fun a b => (snd b - snd a)%Z) uniqueResponses).

(** How many items of the data carry the response [v]. *)
Definition occurrences (v : AnyValue) (originalData : list SelectedDatum) : Z :=
  Z.of_nat (count_occ AnyValue_eq_dec (map value originalData) v).

(** The sum of the counts of a map. *)
Definition total (m : JSMap) : Z := foldr Z.add 0%Z (map snd m).

(** Entries ordered by popularity: no entry is followed by a larger count. *)
Definition by_popularity (m : JSMap) : Prop :=
  StronglySorted (fun a b : AnyValue * Z => (snd b <= snd a)%Z) m.

(** The loop invariant of the counting pass: after the items [seen], the
    map holds the number of occurrences of each response seen so far. *)
Definition counts_of (seen : list SelectedDatum) (m : JSMap) : Prop :=
  NoDup (map fst m)
  /\ (forall v, Map_get v m
                = if decide (occurrences v seen = 0%Z) then None
                  else Some (occurrences v seen))
  /\ total m = Z.of_nat (length seen).

Section RowForm.

Variable t : string -> string.

(** What [renderResponseRow] puts in a row of the responses table; the
    percentage cell (a formatted floating-point number) is left out. *)
Record ResponseRow : Type := {
  responseLabel : AnyValue;
  responseCount : Z;
  responseValue : AnyValue;
}.

Definition renderResponseRow (data : AnyValue * Z) : ResponseRow :=
  let count := snd data in
  let response := fst data in
  if decide (response = VUndefined) then
    {| responseLabel := VString (EMPTY_VALUE_LABEL t);
       responseCount := count;
       responseValue := EMPTY_VALUE |}
  else
    {| responseLabel := response;
       responseCount := count;
       responseValue := response |}.

(** [getPlaceholderValue]. *)
Definition getPlaceholderValue (overrideData : AnyValue) : string :=
  if decide (overrideData = EMPTY_VALUE) then EMPTY_VALUE_LABEL t
  else t "Type new response for selected submissions".

(** [BulkEditRowForm.onChange], with the props [renderSelectedQuestion]
    passes: [onChange] is the form's [onRowOverrideChange]. *)
Definition RowForm_onChange (question : Question) (newValue : AnyValue) : M unit :=
  onRowOverrideChange (name question) newValue.

(** Clicking the [Select] button of a response row. *)
Definition clickSelect (question : Question) (row : ResponseRow) : M unit :=
  RowForm_onChange question (responseValue row).

(** [render] of the row form: the text box shows the override only when it
    is a string. *)
Definition inputValue (overrideData : AnyValue) : string :=
  match overrideData with
  | Primitive (VString s) => s
  | _ => ""
  end.

End RowForm.

(** *** The list of questions *)

Definition with_selectedData (question : Question)
    (rows : list SelectedDatum) : Question :=
  {| name := name question; label := label question; type := type question;
     parents := parents question; isRequired := isRequired question;
     selectedData := rows |}.

(** One pass of the inner [forEach] of [getDisplayData]: the row pushed for
    a submission, if any.  [submissionData[questionPath]] turns the path
    into a property key with [String_of]; the result is left undefined
    where [String_of] is. *)
Definition selectedRow (props : Props) (questionPath : AnyValue)
    (submissionData : gmap string JSValue) : option (option SelectedDatum) :=
  match String_of (obj_get (plain submissionData) "_id") with
  | None => None
  | Some id =>
      if bool_decide (id ∈ selectedSubmissions props) then
        match String_of questionPath with
        | None => None
        | Some key =>
            Some (Some {| sid := obj_get (plain submissionData) "_id";
                          value := obj_get (plain submissionData) key |})
        end
      else Some None
  end.

(** [getDisplayData], given what [getFlatQuestionsList] and
    [getSurveyFlatPaths] return for the asset's survey (the questions, and
    the own properties of the object of flat paths) and given
    [this.props.data] (the own properties of each submission). *)
Definition getDisplayData (props : Props) (questions : list Question)
    (flatPaths : gmap string string) (data : list (gmap string JSValue))
  : option (list Question) :=
  mapM (fun question =>
          let questionPath :=
            obj_get (plain (VString <$> flatPaths)) (name question) in
          match mapM (selectedRow props questionPath) data with
          | None => None
          | Some rows => Some (with_selectedData question (omap id rows))
          end)
       questions.

(** Whether [selectedSubmissions] includes [String(id)], where that string
    is defined. *)
Definition isSelectedId (props : Props) (id : AnyValue) : bool :=
  match String_of id with
  | Some s => bool_decide (s ∈ selectedSubmissions props)
  | None => false
  end.

(** [Set.prototype.add]: a value already in the set changes nothing. *)
Definition Set_add (v : AnyValue) (s : list AnyValue) : list AnyValue :=
  if bool_decide (v ∈ s) then s else s ++ [v].

(** What a response cell shows: an override marked with the blue dot, or a
    plain text. *)
Inductive ResponseCell : Type :=
  | UpdatedResponse (v : AnyValue)
  | OriginalResponse (v : AnyValue).

Section ListView.

Variable t : string -> string.

(** The value one row contributes to the set of unique values. *)
Definition shownValue (item : SelectedDatum) : AnyValue :=
  if truthy (value item) then value item
  else VString (EMPTY_VALUE_LABEL t).

Definition renderDataValues (s : State) (questionName : string)
    (rowData : list SelectedDatum) : ResponseCell :=
  let overrideValue := obj_get (overridesObject s) questionName in
  if decide (typeof_any overrideValue <> "undefined") then
    if decide (overrideValue = VNull) then
      UpdatedResponse (VString (EMPTY_VALUE_LABEL t))
    else UpdatedResponse overrideValue
  else
    let uniqueValues :=
      fold_left (fun set item => Set_add (shownValue item) set) rowData [] in
    match uniqueValues with
    | [v] => OriginalResponse v
    | _ => OriginalResponse (VString (MULTIPLE_VALUES_LABEL t))
    end.

End ListView.

(** What [onRowOverrideChange] leaves in [selectedQuestionOverride] when it
    is given [v] for the selected question. *)
Definition chosen (v : AnyValue) : AnyValue :=
  if decide (v = VUndefined) then EMPTY_VALUE else v.

(** [Object.keys]. *)
Definition Object_keys (o : gmap string JSValue) : list string :=
  (map_to_list o).*1.

(** The [disabled] attribute of the two footer buttons of the list. *)
Definition footerDisabled (s : State) : bool :=
  isPending s || bool_decide (length (Object_keys (overrides s)) = 0).

(** The pending flag a sequence of events leads to. *)
Fixpoint pending_after (es : list Event) (pending : bool) : bool :=
  match es with
  | [] => pending
  | submit :: es' => pending_after es' true
  | completed :: es' => pending_after es' false
  | failed :: es' => pending_after es' false
  | _ :: es' => pending_after es' pending
  end.

Definition is_completed (e : Event) : bool :=
  match e with
  | completed => true
  | _ => false
  end.

Definition is_submit (e : Event) : bool :=
  match e with
  | submit => true
  | _ => false
  end.

(** The calls of [onModalClose] and of [bulkPatchValues] in a trace. *)
Definition is_close (e : Effect) : bool :=
  match e with
  | onModalClose => true
  | _ => false
  end.

Definition modalCloses (tr : list Effect) : list Effect :=
  filter (fun e => is_close e = true) tr.

Definition is_patch (e : Effect) : bool :=
  match e with
  | bulkPatchValues _ _ _ => true
  | _ => false
  end.

Definition patchCalls (tr : list Effect) : list Effect :=
  filter (fun e => is_patch e = true) tr.

(** A well-formed request: the asset's uid, the selected submissions, and
    values that pass the test of [saveOverride]. *)
Definition patch_ok (props : Props) (e : Effect) : Prop :=
  exists data,
    e = bulkPatchValues (asset_uid props) (selectedSubmissions props) data
    /\ map_Forall (fun _ (v : JSValue) => is_storable v = true) data.

End BulkEdit.

(** ** cypress/support/commands.js *)

Module Cypress.

(** Arguments of a command: a primitive or a reference to an object of the
    heap. *)
Inductive Value : Type :=
  | Prim (v : JSValue)
  | Ref (l : positive).

#[global] Instance Value_eq_dec : EqDecision Value.
Proof. solve_decision. Defined.

Definition undefined : Value := Prim VUndefined.

(** The heap: each object is a dictionary of its own properties. *)
Abbreviation Heap := (gmap positive (gmap string Value)).

Definition typeof_value (v : Value) : string :=
  match v with
  | Prim p => typeof p
  | Ref _ => "object"
  end.

(** [v === undefined || v === null], the test of the [??] family. *)
Definition nullish (v : Value) : bool :=
  match v with
  | Prim VUndefined | Prim VNull => true
  | _ => false
  end.

(** The own properties of the object at [l]. *)
Definition fields (h : Heap) (l : positive) : gmap string Value :=
  default ∅ (h !! l).

(** [o.matchCase] for an object with properties [o]. *)
Definition get_matchCase (o : gmap string Value) : Value :=
  default undefined (o !! "matchCase").

(** The arguments [originalFn] is called with. *)
Record Call : Type := {
  call_subject : Value;
  call_filter : Value;
  call_text : Value;
  call_options : Value;
}.

Inductive Outcome : Type :=
  | Delegated (c : Call) (h : Heap)
  | Thrown (h : Heap).

(** [options.matchCase ??= false].  On an object it assigns when the
    current value is nullish; reading a property of [null] or [undefined]
    throws; a primitive has no [matchCase], and assigning to it throws in
    strict code and is ignored otherwise. *)
Definition default_matchCase (strict : bool) (options : Value) (h : Heap)
  : option Heap :=
  match options with
  | Ref l =>
      if nullish (get_matchCase (fields h l)) then
        Some (<[l := <["matchCase" := Prim (VBool false)]> (fields h l)]> h)
      else Some h
  | Prim VUndefined | Prim VNull => None
  | Prim _ => if strict then None else Some h
  end.

(** The function passed to [Cypress.Commands.overwrite('contains', ...)]. *)
Definition contains (strict : bool)
    (subject filter text options : Value) (h : Heap) : Outcome :=
  (* options = {} *)
  let '(options, h) :=
    if decide (options = undefined) then
      let l := fresh (dom h) in (Ref l, <[l := ∅]> h)
    else (options, h) in
  (* determine if a filter argument was passed *)
  let '(filter, text, options) :=
    if decide (typeof_value text = "object") then (undefined, filter, text)
    else (filter, text, options) in
  match default_matchCase strict options h with
  | Some h' =>
      Delegated {| call_subject := subject; call_filter := filter;
                   call_text := text; call_options := options |} h'
  | None => Thrown h
  end.

End Cypress.

(** ** Sample inputs *)

Module Examples.
Import BulkEdit Cypress.

(** An untranslated locale. *)
Definition t_en (s : string) : string := s.

Definition age_question : Question :=
  {| name := "age"; label := "Age"; type := "integer"; parents := [];
     isRequired := false;
     selectedData := [ {| sid := VNumber 11; value := VString "30" |};
                       {| sid := VNumber 12; value := VUndefined |};
                       {| sid := VNumber 14; value := VString "30" |} ] |}.

Definition two_of_five : Props :=
  {| asset_uid := "aBcDeF"; totalSubmissions := 5;
     selectedSubmissions := ["11"; "12"; "14"] |}.

(** The form after mounting and pressing [Edit] on the question. *)
Definition editing_age : World :=
  run_events t_en replace_first two_of_five [didMount; select age_question]
             (constructor ∅).

(** A freshly constructed form. *)
Definition fresh_form : World := constructor ∅.


(** A question whose name is an accessor of [Object.prototype], and one
    whose name is a method of it. *)
Definition proto_question : Question :=
  {| name := "__proto__"; label := "Proto"; type := "text"; parents := [];
     isRequired := false; selectedData := [] |}.

Definition constructor_question : Question :=
  {| name := "constructor"; label := "Constructor"; type := "text";
     parents := []; isRequired := false; selectedData := [] |}.


(** The form with "31" typed for the open question [age]. *)
Definition typing_age : World :=
  run_events t_en replace_first two_of_five
    [ rowOverrideChange "age" (VString "31") ] editing_age.

(** Four submissions, one of them without an answer to [age]. *)
Definition four_submissions : list (gmap string JSValue) :=
  [ {[ "_id" := VNumber 11; "age" := VString "30" ]};
    {[ "_id" := VNumber 12 ]};
    {[ "_id" := VNumber 13; "age" := VString "41" ]};
    {[ "_id" := VNumber 14; "age" := VString "30" ]} ].

(** The question as [getFlatQuestionsList] gives it. *)
Definition age_listed : Question :=
  {| name := "age"; label := "Age"; type := "integer"; parents := [];
     isRequired := false; selectedData := [] |}.

(** A heap with one options object, [{matchCase: true}]. *)
Definition heap_matchCase_true : gmap positive (gmap string Value) :=
  {[ 1%positive := {[ "matchCase" := Prim (VBool true) ]} ]}.

End Examples.

(** * Properties *)

(** ** The static registries *)

Module ProjectViewsSpec.
Import ProjectViews.

Section Registries.

Variable t : string -> string.

Lemma FILTER_CONDITIONS_keys :
  literal_keys (FILTER_CONDITIONS t)
  = ["is"; "isNot"; "contains"; "doesNotContain"; "startsWith"; "endsWith";
     "isEmpty"; "isNotEmpty"].
Proof. reflexivity. Qed.

Lemma FILTER_CONDITIONS_keys_NoDup : NoDup (literal_keys (FILTER_CONDITIONS t)).
Proof. rewrite FILTER_CONDITIONS_keys. apply (bool_decide_unpack _). vm_compute. exact I. Qed.

Lemma PROJECT_FIELDS_keys_NoDup : NoDup (literal_keys (PROJECT_FIELDS t)).
Proof. apply (bool_decide_unpack _). vm_compute. exact I. Qed.

(** The keys of each registry are the members of its key type. *)
Lemma FILTER_CONDITIONS_keys_complete :
  literal_keys (FILTER_CONDITIONS t) ≡ₚ FilterConditionName.
Proof. apply (bool_decide_unpack _). vm_compute. exact I. Qed.

Lemma PROJECT_FIELDS_keys_complete :
  literal_keys (PROJECT_FIELDS t) ≡ₚ ProjectFieldName.
Proof. apply (bool_decide_unpack _). vm_compute. exact I. Qed.

(** C3: the query templates of the [contains] and [isNot] conditions are
    exactly [<field>__icontains:<term>] and [NOT <field>__iexact:<term>]. *)
Theorem filter_query_templates :
  filterQuery <$> literal_get "contains" (FILTER_CONDITIONS t)
    = Some "<field>__icontains:<term>"
  ∧ filterQuery <$> literal_get "isNot" (FILTER_CONDITIONS t)
    = Some "NOT <field>__iexact:<term>".
Proof. split; reflexivity. Qed.

(** C5: for every entry of [FILTER_CONDITIONS], [requiresValue] is true
    exactly when the [filterQuery] template contains [<term>]; the entries
    without a value are [isEmpty] and [isNotEmpty], the other six take one. *)
Theorem requiresValue_iff_term_placeholder :
  Forall (fun c => requiresValue c.2 = includes (filterQuery c.2) "<term>")
         (FILTER_CONDITIONS t)
  ∧ literal_keys (filter (fun c => requiresValue c.2 = false) (FILTER_CONDITIONS t))
    = ["isEmpty"; "isNotEmpty"]
  ∧ literal_keys (filter (fun c => requiresValue c.2 = true) (FILTER_CONDITIONS t))
    = ["is"; "isNot"; "contains"; "doesNotContain"; "startsWith"; "endsWith"].
Proof.
  split; [| split; reflexivity].
  unfold FILTER_CONDITIONS.
  repeat (apply Forall_cons; split; [reflexivity |]).
  apply Forall_nil_2.
Qed.

(** C6: in both registries every key maps to an entry named by that key, and
    every default project field is a key of [PROJECT_FIELDS]. *)
Theorem registries_consistent :
  Forall (fun k => pf_name <$> literal_get k (PROJECT_FIELDS t) = Some k)
         (literal_keys (PROJECT_FIELDS t))
  ∧ Forall (fun c => fc_name <$> literal_get c (FILTER_CONDITIONS t) = Some c)
           (literal_keys (FILTER_CONDITIONS t))
  ∧ Forall (fun k => k ∈ literal_keys (PROJECT_FIELDS t)) DEFAULT_PROJECT_FIELDS.
Proof.
  split; [| split].
  - unfold PROJECT_FIELDS, literal_keys. simpl map.
    repeat (apply Forall_cons; split; [reflexivity |]). apply Forall_nil_2.
  - unfold FILTER_CONDITIONS, literal_keys. simpl map.
    repeat (apply Forall_cons; split; [reflexivity |]). apply Forall_nil_2.
  - unfold DEFAULT_PROJECT_FIELDS.
    repeat (apply Forall_cons; split;
            [apply (bool_decide_unpack _); vm_compute; exact I |]).
    apply Forall_nil_2.
Qed.

(** X15: every filter template, of the conditions and of the dates, has
    the [<field>] placeholder; the templates of the conditions are pairwise
    different; the template of each negative condition is the one of its
    positive counterpart after [NOT ]. *)
Theorem filter_templates_wellformed :
  Forall (fun c => includes (filterQuery c.2) "<field>" = true)
         (FILTER_CONDITIONS t)
  /\ Forall (fun q => includes q.2 "<field>" = true) DATE_FILTER_QUERIES
  /\ NoDup (map (fun c => filterQuery c.2) (FILTER_CONDITIONS t))
  /\ Forall (fun pn =>
               filterQuery <$> literal_get pn.2 (FILTER_CONDITIONS t)
               = (fun q => "NOT " +:+ q)
                   <$> (filterQuery <$> literal_get pn.1 (FILTER_CONDITIONS t)))
            [ ("is", "isNot"); ("contains", "doesNotContain");
              ("isEmpty", "isNotEmpty") ].
Proof.
  split; [| split; [| split]].
  - unfold FILTER_CONDITIONS.
    repeat (apply Forall_cons; split; [reflexivity |]). apply Forall_nil_2.
  - unfold DATE_FILTER_QUERIES.
    repeat (apply Forall_cons; split; [reflexivity |]). apply Forall_nil_2.
  - apply (bool_decide_unpack _). vm_compute. exact I.
  - repeat (apply Forall_cons; split; [reflexivity |]). apply Forall_nil_2.
Qed.

(** X16: a project field can be ordered by exactly when it can be filtered
    by; no two fields share a backend property; every status query is a
    query on the backend property of the [status] field; the default fields
    are pairwise different and include [name]. *)
Theorem project_fields_wellformed :
  Forall (fun f => filterable f.2 = orderable f.2) (PROJECT_FIELDS t)
  /\ NoDup (map (fun f => apiPropertyName f.2) (PROJECT_FIELDS t))
  /\ Forall (fun q =>
               (fun p => String.prefix p q.2)
                 <$> (apiPropertyName <$> literal_get "status" (PROJECT_FIELDS t))
               = Some true)
            STATUS_FILTER_QUERIES
  /\ NoDup DEFAULT_PROJECT_FIELDS
  /\ "name" ∈ DEFAULT_PROJECT_FIELDS.
Proof.
  split; [| split; [| split; [| split]]].
  - unfold PROJECT_FIELDS.
    repeat (apply Forall_cons; split; [reflexivity |]). apply Forall_nil_2.
  - apply (bool_decide_unpack _). vm_compute. exact I.
  - unfold STATUS_FILTER_QUERIES.
    repeat (apply Forall_cons; split; [reflexivity |]). apply Forall_nil_2.
  - apply (bool_decide_unpack _). vm_compute. exact I.
  - apply (bool_decide_unpack _). vm_compute. exact I.
Qed.

End Registries.

End ProjectViewsSpec.

(** ** The bulk-edit form *)

Module BulkEditSpec.
Import BulkEdit.

(** A deep copy of a dictionary of primitives has the same entries. *)
Lemma clonedeep_plain (o : PlainObject) : clonedeep o = plain (own o).
Proof. unfold clonedeep. by rewrite list_to_map_to_list. Qed.

(** A name that is no own property reads what the prototype gives. *)
Lemma obj_get_absent (o : PlainObject) (k : string) :
  own o !! k = None -> obj_get o k = inherited (proto o) k.
Proof. unfold obj_get. intros ->. reflexivity. Qed.

Lemma obj_get_present (o : PlainObject) (k : string) (v : JSValue) :
  own o !! k = Some v -> obj_get o k = v.
Proof. unfold obj_get. intros ->. reflexivity. Qed.

(** No prototype gives [null] for any name. *)
Lemma inherited_not_null (p : Prototype) (k : string) :
  inherited p k <> VNull.
Proof.
  unfold inherited. destruct p; [| discriminate].
  case_decide; [discriminate |]. case_bool_decide; discriminate.
Qed.

(** Names outside [Object.prototype] read [undefined] when they are no own
    property. *)
Lemma inherited_undefined (p : Prototype) (k : string) :
  k <> "__proto__" -> k ∉ Object_prototype_methods ->
  inherited p k = VUndefined.
Proof.
  intros Hk Hm. unfold inherited. destruct p; [| reflexivity].
  rewrite decide_False by exact Hk. by rewrite bool_decide_eq_false_2.
Qed.

(** An assignment on a fresh clone: under every name but [__proto__] it
    makes or updates the own property; under [__proto__] it leaves the own
    properties alone unless the object has that own property already. *)
Lemma own_obj_set (o : gmap string JSValue) (k : string) (v : JSValue) :
  own (obj_set (plain o) k v)
  = if decide (k = "__proto__" /\ o !! k = None) then o else <[k := v]> o.
Proof.
  unfold obj_set, plain. simpl.
  destruct (decide (k = "__proto__")) as [-> | Hk].
  - destruct (o !! "__proto__") eqn:Ho; reflexivity.
  - case_decide as H; [destruct H; contradiction | reflexivity].
Qed.

(** [is_storable] holds of the sentinel and of non-empty strings only. *)
Lemma is_storable_spec (v : AnyValue) :
  is_storable v = true
  <-> v = VNull \/ exists s, v = VString s /\ 1 <= String.length s.
Proof.
  unfold is_storable, EMPTY_VALUE. split.
  - destruct v as [[| |b|n|s] | |m]; simpl; try discriminate; auto.
    intros H. right. exists s. split; [reflexivity |].
    by apply bool_decide_eq_true in H.
  - intros [-> | (s & -> & Hlen)]; [reflexivity |]. simpl.
    by rewrite (bool_decide_eq_true_2 _ Hlen).
Qed.

(** A value that passes the test is the primitive that gets assigned. *)
Lemma is_storable_stored (v : AnyValue) :
  is_storable v = true -> v = Primitive (stored v).
Proof.
  intros H. apply is_storable_spec in H as [-> | (s & -> & _)]; reflexivity.
Qed.

Ltac run :=
  unfold bind, ret, throw, getState, modifyState, emit; simpl.

Section Form.

Variable t : string -> string.
Variable String_replace : string -> string -> string -> string.
Variable props : Props.

Local Abbreviation saveOverride := (saveOverride t String_replace props).
Local Abbreviation goBackToList := (goBackToList t String_replace props).
Local Abbreviation componentDidMount := (componentDidMount t String_replace props).

(** [saveOverride] with a question selected: the new object is a clone of
    the old one with the question's name assigned or deleted. *)
Lemma saveOverride_selected_object (w : World) (q : Question) :
  selectedQuestion (state w) = Some q ->
  exists w',
    saveOverride w = Return tt w'
    /\ overridesObject (state w')
       = (if is_storable (selectedQuestionOverride (state w))
          then obj_set (plain (overrides (state w))) (name q)
                       (stored (selectedQuestionOverride (state w)))
          else obj_delete (plain (overrides (state w))) (name q))
    /\ selectedQuestion (state w') = None
    /\ isPending (state w') = isPending (state w).
Proof.
  intros Hq. unfold BulkEdit.saveOverride, BulkEdit.goBackToList,
    setModalTitleToList. run. rewrite Hq, clonedeep_plain.
  destruct (is_storable (selectedQuestionOverride (state w))); simpl;
    eexists; (split; [reflexivity |]); simpl; (split; [| auto]);
    unfold overridesObject; simpl; [| reflexivity].
  by destruct (obj_set _ _ _).
Qed.

(** The own properties [saveOverride] leaves. *)
Lemma saveOverride_selected (w : World) (q : Question) :
  selectedQuestion (state w) = Some q ->
  exists w',
    saveOverride w = Return tt w'
    /\ overrides (state w')
       = (if is_storable (selectedQuestionOverride (state w))
          then if decide (name q = "__proto__"
                          /\ overrides (state w) !! name q = None)
               then overrides (state w)
               else <[name q := stored (selectedQuestionOverride (state w))]>
                      (overrides (state w))
          else delete (name q) (overrides (state w)))
    /\ selectedQuestion (state w') = None
    /\ isPending (state w') = isPending (state w).
Proof.
  intros Hq.
  destruct (saveOverride_selected_object w q Hq) as (w' & Hrun & Hobj & Hs & Hp).
  exists w'. split; [exact Hrun |]. split; [| by split].
  change (overrides (state w')) with (own (overridesObject (state w'))).
  rewrite Hobj.
  destruct (is_storable (selectedQuestionOverride (state w)));
    [apply own_obj_set | reflexivity].
Qed.

(** With no question selected [saveOverride] throws and changes nothing. *)
Lemma saveOverride_unselected (w : World) :
  selectedQuestion (state w) = None -> saveOverride w = TypeError w.
Proof.
  intros Hq. unfold BulkEdit.saveOverride. run. rewrite Hq.
  destruct (is_storable _); reflexivity.
Qed.

(** C2: the failure handler only sets [isPending] to false: it makes no
    call (so the modal is not closed) and leaves the overrides and every
    other piece of state unchanged; the completion handler sets [isPending]
    to false and calls [onModalClose]. *)
Theorem failed_only_clears_pending (w : World) :
  (exists w',
     onBulkPatchValuesFailed w = Return tt w'
     /\ isPending (state w') = false
     /\ overrides (state w') = overrides (state w)
     /\ overridesProto (state w') = overridesProto (state w)
     /\ selectedQuestion (state w') = selectedQuestion (state w)
     /\ selectedQuestionOverride (state w') = selectedQuestionOverride (state w)
     /\ filterByName (state w') = filterByName (state w)
     /\ filterByValue (state w') = filterByValue (state w)
     /\ effects w' = effects w
     /\ unlisteners w' = unlisteners w
     /\ listeners w' = listeners w)
  /\ (exists w',
        onBulkPatchValuesCompleted w = Return tt w'
        /\ isPending (state w') = false
        /\ effects w' = (effects w ++ [onModalClose])%list).
Proof.
  split; eexists; (split; [reflexivity |]); simpl; repeat split; reflexivity.
Qed.

(** C4: [onSubmit] sets [isPending] to true and calls [bulkPatchValues]
    once, with the asset's uid, the whole [selectedSubmissions] list and the
    current overrides. *)
Theorem onSubmit_patches_all_selected (w : World) :
  exists w',
    onSubmit props w = Return tt w'
    /\ isPending (state w') = true
    /\ effects w'
       = (effects w ++ [bulkPatchValues (asset_uid props)
                                        (selectedSubmissions props)
                                        (overrides (state w))])%list
    /\ overrides (state w') = overrides (state w).
Proof.
  eexists. split; [reflexivity |]. simpl. repeat split; reflexivity.
Qed.

(** Choosing "no answer" for the selected question and saving, for a
    question with any name but [__proto__]. *)
Lemma no_answer_then_save (w : World) (q : Question) :
  name q <> "__proto__" ->
  selectedQuestion (state w) = Some q ->
  exists w',
    (onRowOverrideChange (name q) VUndefined ;; saveOverride) w = Return tt w'
    /\ overrides (state w') !! name q = Some EMPTY_VALUE
    /\ obj_get (overridesObject (state w')) (name q) = VNull.
Proof.
  intros Hname Hq. unfold onRowOverrideChange. run. rewrite Hq.
  rewrite decide_True by reflexivity. simpl.
  match goal with |- context [saveOverride ?w1] =>
    destruct (saveOverride_selected w1 q Hq) as (w' & Hrun & Hov & _)
  end.
  exists w'. split; [exact Hrun |]. simpl in Hov.
  rewrite decide_False in Hov by (intros [? _]; contradiction).
  assert (Hl : overrides (state w') !! name q = Some EMPTY_VALUE)
    by (rewrite Hov; apply lookup_insert_eq).
  split; [exact Hl |]. by apply obj_get_present.
Qed.

(** The [Select] button of the row of the empty response passes the
    sentinel, which [onRowOverrideChange] stores like an [undefined]. *)
Lemma clickSelect_empty_response (w : World) (q : Question) (count : Z) :
  selectedQuestion (state w) = Some q ->
  clickSelect q (renderResponseRow t (Primitive VUndefined, count)) w
  = onRowOverrideChange (name q) VUndefined w.
Proof.
  intros Hq. unfold clickSelect, RowForm_onChange, renderResponseRow. simpl.
  unfold onRowOverrideChange. run. rewrite Hq.
  rewrite decide_True by reflexivity. reflexivity.
Qed.

(** X17: for every question whose name is not [__proto__], choosing "no
    answer" for it (an [undefined] passed to [onRowOverrideChange], or the
    [Select] button of the row of the empty response) and then saving leaves
    the sentinel [null] as the own property of that name, which is what
    [overrides[q]] then reads: both when the question is the selected one of
    any state and when it is opened with [selectQuestion] from any state.
    An object without that own property never reads [null] there. *)
Theorem no_answer_is_stored_as_null (w : World) (q : Question) (count : Z) :
  name q <> "__proto__" ->
  (selectedQuestion (state w) = Some q ->
   (exists w',
      (onRowOverrideChange (name q) VUndefined ;; saveOverride) w = Return tt w'
      /\ overrides (state w') !! name q = Some EMPTY_VALUE
      /\ obj_get (overridesObject (state w')) (name q) = VNull)
   /\ (exists w',
         (clickSelect q (renderResponseRow t (Primitive VUndefined, count)) ;;
          saveOverride) w = Return tt w'
         /\ overrides (state w') !! name q = Some EMPTY_VALUE
         /\ obj_get (overridesObject (state w')) (name q) = VNull))
  /\ (exists w',
        (selectQuestion t String_replace props q ;;
         onRowOverrideChange (name q) VUndefined ;; saveOverride) w
          = Return tt w'
        /\ overrides (state w') !! name q = Some EMPTY_VALUE
        /\ obj_get (overridesObject (state w')) (name q) = VNull)
  /\ (exists w',
        (selectQuestion t String_replace props q ;;
         clickSelect q (renderResponseRow t (Primitive VUndefined, count)) ;;
         saveOverride) w
          = Return tt w'
        /\ overrides (state w') !! name q = Some EMPTY_VALUE
        /\ obj_get (overridesObject (state w')) (name q) = VNull)
  /\ (forall o : PlainObject,
        own o !! name q = None -> obj_get o (name q) <> VNull).
Proof.
  intros Hname. split; [| split; [| split]].
  - intros Hq. split; [by apply no_answer_then_save |].
    destruct (no_answer_then_save w q Hname Hq) as (w' & Hrun & Hov).
    exists w'. split; [| exact Hov].
    rewrite <- Hrun. unfold bind.
    by rewrite (clickSelect_empty_response w q count Hq).
  - unfold selectQuestion, setModalTitleToQuestion.
    unfold bind at 1. unfold getState at 1.
    unfold bind at 1. unfold modifyState at 1.
    unfold bind at 1. unfold emit at 1.
    match goal with |- context [bind _ _ ?w1] =>
      apply (no_answer_then_save w1 q Hname); reflexivity
    end.
  - unfold selectQuestion, setModalTitleToQuestion.
    unfold bind at 1. unfold getState at 1.
    unfold bind at 1. unfold modifyState at 1.
    unfold bind at 1. unfold emit at 1.
    match goal with |- context [bind _ _ ?w1] =>
      assert (Hq1 : selectedQuestion (state w1) = Some q) by reflexivity;
      destruct (no_answer_then_save w1 q Hname Hq1) as (w' & Hrun & Hov);
      exists w'; split; [| exact Hov];
      rewrite <- Hrun; unfold bind;
      by rewrite (clickSelect_empty_response w1 q count Hq1)
    end.
  - intros o Ho. rewrite (obj_get_absent o _ Ho). apply inherited_not_null.
Qed.

(** [componentWillUnmount] calls the unlisteners one by one, in order. *)
Lemma forEach_callUnlistener (hs : list positive) (w : World) :
  forEach hs callUnlistener w
  = Return tt {| state := state w; unlisteners := unlisteners w;
                 listeners := foldl (fun m h => delete h m) (listeners w) hs;
                 effects := effects w ++ map unlistenerCalled hs |}.
Proof.
  revert w. induction hs as [| h hs IH]; intros w; simpl.
  - rewrite app_nil_r. by destruct w.
  - unfold bind at 1. unfold callUnlistener at 1. rewrite IH. simpl.
    by rewrite <- app_assoc.
Qed.

(** C7: mounting pushes two unlisteners, one per registered listener;
    unmounting calls each of them exactly once, and afterwards neither
    registration is left: the registry is what it was before mounting. *)
Theorem unmount_calls_every_unlistener (w : World) :
  unlisteners w = [] ->
  exists h1 h2 w1 w2,
    componentDidMount w = Return tt w1
    /\ unlisteners w1 = [h1; h2]
    /\ h1 <> h2
    /\ listeners w !! h1 = None /\ listeners w !! h2 = None
    /\ listeners w1 !! h1
       = Some (bulkPatchValues_completed, onBulkPatchValuesCompleted_clb)
    /\ listeners w1 !! h2
       = Some (bulkPatchValues_failed, onBulkPatchValuesFailed_clb)
    /\ componentWillUnmount w1 = Return tt w2
    /\ effects w2 = (effects w1 ++ [unlistenerCalled h1; unlistenerCalled h2])%list
    /\ listeners w2 !! h1 = None /\ listeners w2 !! h2 = None
    /\ listeners w2 = listeners w.
Proof.
  intros Hnil.
  set (h1 := fresh (dom (listeners w))).
  set (L1 := <[h1 := (bulkPatchValues_completed, onBulkPatchValuesCompleted_clb)]>
               (listeners w)).
  set (h2 := fresh (dom L1)).
  assert (H1 : listeners w !! h1 = None).
  { apply not_elem_of_dom. apply is_fresh. }
  assert (H2 : L1 !! h2 = None).
  { apply not_elem_of_dom. apply is_fresh. }
  assert (Hne : h1 <> h2).
  { intros Heq. rewrite <- Heq in H2. unfold L1 in H2.
    by rewrite lookup_insert_eq in H2. }
  assert (H2' : listeners w !! h2 = None).
  { unfold L1 in H2. by rewrite lookup_insert_ne in H2. }
  exists h1, h2. eexists. eexists.
  split; [unfold BulkEdit.componentDidMount, setModalTitleToList, listen,
          push_unlisteners; run; reflexivity |].
  simpl. rewrite Hnil. simpl. fold h1 L1 h2.
  split; [reflexivity |]. split; [exact Hne |].
  split; [exact H1 |]. split; [exact H2' |].
  split; [rewrite lookup_insert_ne by auto; apply lookup_insert_eq |].
  split; [apply lookup_insert_eq |].
  unfold componentWillUnmount. simpl.
  split; [reflexivity |]. simpl.
  split; [by rewrite <- app_assoc |].
  assert (Hback : delete h2 (delete h1 (<[h2 :=
            (bulkPatchValues_failed, onBulkPatchValuesFailed_clb)]> L1))
          = listeners w).
  { rewrite delete_insert_ne by auto. rewrite delete_insert_eq.
    subst L1. rewrite delete_insert_eq.
    rewrite (delete_id _ h1) by exact H1. by apply delete_id. }
  rewrite Hback. auto.
Qed.

(** Every handler keeps the overrides free of values other than the
    sentinel and non-empty strings. *)
Lemma handle_keeps_storable (e : Event) (w : World) :
  map_Forall (fun _ (v : JSValue) => is_storable v = true) (overrides (state w)) ->
  map_Forall (fun _ (v : JSValue) => is_storable v = true)
             (overrides (state (world_of (handle t String_replace props e w)))).
Proof.
  intros Hinv. destruct e; simpl; try exact Hinv.
  - unfold componentWillUnmount. by rewrite forEach_callUnlistener.
  - unfold onRowOverrideChange. run.
    destruct (selectedQuestion (state w)) as [q |]; [| exact Hinv].
    repeat case_decide; exact Hinv.
  - apply map_Forall_empty.
  - destruct (selectedQuestion (state w)) as [q |] eqn:Hq.
    + destruct (saveOverride_selected w q Hq) as (w' & Hrun & Hov & _).
      rewrite Hrun. simpl. rewrite Hov.
      destruct (is_storable _) eqn:Hst.
      * case_decide; [exact Hinv |].
        apply map_Forall_insert_2; [| exact Hinv].
        by rewrite <- is_storable_stored.
      * by apply map_Forall_delete.
    + by rewrite saveOverride_unselected.
Qed.

Lemma run_events_keeps_storable (es : list Event) (w : World) :
  map_Forall (fun _ (v : JSValue) => is_storable v = true) (overrides (state w)) ->
  map_Forall (fun _ (v : JSValue) => is_storable v = true)
             (overrides (state (run_events t String_replace props es w))).
Proof.
  revert w. induction es as [| e es IH]; intros w Hinv; simpl; [exact Hinv |].
  apply IH. by apply handle_keeps_storable.
Qed.

(** No handler gives the overrides an own property named [__proto__]. *)
Lemma handle_keeps_no_own_proto (e : Event) (w : World) :
  overrides (state w) !! "__proto__" = None ->
  overrides (state (world_of (handle t String_replace props e w)))
    !! "__proto__" = None.
Proof.
  intros Hinv. destruct e; simpl; try exact Hinv.
  - unfold componentWillUnmount. by rewrite forEach_callUnlistener.
  - unfold onRowOverrideChange. run.
    destruct (selectedQuestion (state w)) as [q |]; [| exact Hinv].
    repeat case_decide; exact Hinv.
  - apply lookup_empty.
  - destruct (selectedQuestion (state w)) as [q |] eqn:Hq.
    + destruct (saveOverride_selected w q Hq) as (w' & Hrun & Hov & _).
      rewrite Hrun. simpl. rewrite Hov.
      destruct (is_storable _) eqn:Hst.
      * case_decide as Hcase; [exact Hinv |].
        rewrite lookup_insert_ne; [exact Hinv |].
        intros Heq. apply Hcase. split; [exact Heq |]. by rewrite Heq.
      * destruct (decide (name q = "__proto__")) as [-> | Hne].
        -- apply lookup_delete_eq.
        -- by rewrite lookup_delete_ne.
    + by rewrite saveOverride_unselected.
Qed.

Lemma run_events_keeps_no_own_proto (es : list Event) (w : World) :
  overrides (state w) !! "__proto__" = None ->
  overrides (state (run_events t String_replace props es w)) !! "__proto__"
  = None.
Proof.
  revert w. induction es as [| e es IH]; intros w Hinv; simpl; [exact Hinv |].
  apply IH. by apply handle_keeps_no_own_proto.
Qed.

(** C1, at the failing input: for a question named [__proto__], on a form
    in any state it can reach from its construction, pressing [Edit],
    choosing "no answer" and saving succeeds but stores nothing: the
    overrides get no own property of that name and keep the own properties
    they had, their prototype becomes [null], and [overrides[q]] reads
    [undefined], not the sentinel. *)
Theorem no_answer_under_proto_name_is_lost
    (es : list Event) (registry : gmap positive (ActionEvent * Callback))
    (q : Question) :
  let w := run_events t String_replace props es (constructor registry) in
  let proto_q := {| name := "__proto__"; label := label q; type := type q;
                    parents := parents q; isRequired := isRequired q;
                    selectedData := selectedData q |} in
  exists w',
    (selectQuestion t String_replace props proto_q ;;
     onRowOverrideChange "__proto__" VUndefined ;; saveOverride) w
      = Return tt w'
    /\ overrides (state w') !! "__proto__" = None
    /\ overrides (state w') = overrides (state w)
    /\ overridesProto (state w') = null_prototype
    /\ obj_get (overridesObject (state w')) "__proto__" = VUndefined
    /\ obj_get (overridesObject (state w')) "__proto__" <> EMPTY_VALUE.
Proof.
  intros w proto_q.
  assert (Hinv : overrides (state w) !! "__proto__" = None).
  { apply run_events_keeps_no_own_proto. reflexivity. }
  unfold selectQuestion, setModalTitleToQuestion.
  unfold bind at 1. unfold getState at 1.
  unfold bind at 1. unfold modifyState at 1.
  unfold bind at 1. unfold emit at 1.
  unfold onRowOverrideChange. run.
  match goal with |- context [saveOverride ?w1] =>
    assert (Hq : selectedQuestion (state w1) = Some proto_q) by reflexivity;
    destruct (saveOverride_selected_object w1 proto_q Hq)
      as (w' & Hrun & Hobj & _)
  end.
  exists w'. split; [exact Hrun |]. simpl in Hobj.
  unfold obj_set, plain in Hobj. simpl in Hobj. rewrite Hinv in Hobj.
  simpl in Hobj.
  assert (Hown : overrides (state w') = overrides (state w))
    by (change (overrides (state w')) with (own (overridesObject (state w')));
        by rewrite Hobj).
  assert (Hproto : overridesProto (state w') = null_prototype)
    by (change (overridesProto (state w'))
          with (proto (overridesObject (state w'))); by rewrite Hobj).
  assert (Hread : obj_get (overridesObject (state w')) "__proto__" = VUndefined).
  { rewrite Hobj. unfold obj_get. simpl. by rewrite Hinv. }
  split; [by rewrite Hown |]. split; [exact Hown |]. split; [exact Hproto |].
  split; [exact Hread |]. rewrite Hread. discriminate.
Qed.


End Form.

Lemma no_answer_is_stored_as_null_witness :
  name Examples.age_question <> "__proto__"
  /\ selectedQuestion (state Examples.editing_age) = Some Examples.age_question
  /\ exists w',
       (onRowOverrideChange "age" VUndefined ;;
        saveOverride Examples.t_en replace_first Examples.two_of_five)
         Examples.editing_age = Return tt w'
       /\ overrides (state w') !! "age" = Some VNull.
Proof.
  assert (Hname : name Examples.age_question <> "__proto__") by discriminate.
  assert (Hq : selectedQuestion (state Examples.editing_age)
               = Some Examples.age_question) by reflexivity.
  split; [exact Hname |]. split; [exact Hq |].
  destruct (proj1 (no_answer_is_stored_as_null Examples.t_en replace_first
                     Examples.two_of_five Examples.editing_age
                     Examples.age_question 1%Z Hname) Hq)
    as [(w' & Hrun & Hov & _) _].
  exists w'. split; [exact Hrun | exact Hov].
Defined.

Lemma unmount_calls_every_unlistener_witness :
  unlisteners Examples.fresh_form = []
  /\ exists h1 h2 w1 w2,
       componentDidMount Examples.t_en replace_first Examples.two_of_five
                         Examples.fresh_form = Return tt w1
       /\ unlisteners w1 = [h1; h2]
       /\ componentWillUnmount w1 = Return tt w2
       /\ listeners w2 = listeners Examples.fresh_form.
Proof.
  assert (Hnil : unlisteners Examples.fresh_form = []) by reflexivity.
  split; [exact Hnil |].
  destruct (unmount_calls_every_unlistener Examples.t_en replace_first
              Examples.two_of_five Examples.fresh_form Hnil)
    as (h1 & h2 & w1 & w2 & Hm & Hu & _ & _ & _ & _ & _ & Hun & _ & _ & _ & Hl).
  exists h1, h2, w1, w2. repeat split; assumption.
Defined.


(** The calls made while mounting and opening the sample question. *)
Example editing_age_effects :
  effects Examples.editing_age
  = [ onSetModalTitle "Displaying multiple submissions (3 selected of 5)";
      onSetModalTitle ("Editing " +:+ dquote +:+ "Age" +:+ dquote +:+
                       " for 3 submissions") ].
Proof. vm_compute. reflexivity. Qed.

(** Saving an override typed into the text box, then submitting. *)
Example type_save_submit :
  effects (run_events Examples.t_en replace_first Examples.two_of_five
             [rowOverrideChange "age" (VString "31"); save; submit]
             Examples.editing_age)
  = (effects Examples.editing_age ++
     [ onSetModalTitle "Displaying multiple submissions (3 selected of 5)";
       bulkPatchValues "aBcDeF" ["11"; "12"; "14"]
                       {[ "age" := VString "31" ]} ])%list.
Proof. vm_compute. reflexivity. Qed.

(** *** The table of unique responses *)

Example getUniqueResponses_age :
  getUniqueResponses (selectedData Examples.age_question)
  = [(Primitive (VString "30"), 2%Z); (Primitive VUndefined, 1%Z)].
Proof. reflexivity. Qed.

Section UniqueResponses.

Local Open Scope Z_scope.

Lemma Map_get_set_eq (k : AnyValue) (n : Z) (m : JSMap) :
  Map_get k (Map_set k n m) = Some n.
Proof.
  induction m as [| [k' n'] m IH]; simpl.
  - by rewrite decide_True.
  - destruct (decide (k' = k)) as [-> | Hne]; simpl.
    + by rewrite decide_True.
    + by rewrite decide_False.
Qed.

Lemma Map_get_set_ne (k k' : AnyValue) (n : Z) (m : JSMap) :
  k <> k' -> Map_get k' (Map_set k n m) = Map_get k' m.
Proof.
  intros Hne. induction m as [| [k0 n0] m IH]; simpl.
  - by rewrite decide_False.
  - destruct (decide (k0 = k)) as [-> | Hne0]; simpl.
    + by rewrite !decide_False.
    + by rewrite IH.
Qed.

Lemma Map_get_None (k : AnyValue) (m : JSMap) :
  Map_get k m = None <-> k ∉ map fst m.
Proof.
  induction m as [| [k' n'] m IH]; simpl.
  - split; [intros _; apply not_elem_of_nil | reflexivity].
  - rewrite not_elem_of_cons. destruct (decide (k' = k)) as [-> | Hne].
    + split; [discriminate | intros [? _]; congruence].
    + rewrite IH. split; [intros ?; split; congruence | intros [_ ?]; assumption].
Qed.

Lemma Map_get_Some (k : AnyValue) (n : Z) (m : JSMap) :
  NoDup (map fst m) -> Map_get k m = Some n <-> (k, n) ∈ m.
Proof.
  induction m as [| [k' n'] m IH]; simpl; intros Hnd.
  - split; [discriminate | intros H; by apply elem_of_nil in H].
  - apply NoDup_cons in Hnd as [Hk' Hnd]. rewrite elem_of_cons.
    destruct (decide (k' = k)) as [-> | Hne].
    + split; [intros [= ->]; by left |].
      intros [[= ->] | Hin]; [reflexivity |].
      exfalso. apply Hk'. apply list_elem_of_fmap. by exists (k, n).
    + rewrite IH by exact Hnd.
      split; [by right | intros [[= ? ?] | ?]; [congruence | assumption]].
Qed.

(** A new key is appended; an existing key keeps the key list as it is. *)
Lemma Map_set_fresh (k : AnyValue) (n : Z) (m : JSMap) :
  k ∉ map fst m -> Map_set k n m = (m ++ [(k, n)])%list.
Proof.
  induction m as [| [k' n'] m IH]; simpl; intros Hk; [reflexivity |].
  apply not_elem_of_cons in Hk as [Hne Hk].
  rewrite decide_False by congruence. by rewrite IH.
Qed.

Lemma Map_set_keys (k : AnyValue) (n : Z) (m : JSMap) :
  map fst (Map_set k n m)
  = if Map_has k m then map fst m else (map fst m ++ [k])%list.
Proof.
  unfold Map_has. induction m as [| [k' n'] m IH]; simpl; [reflexivity |].
  destruct (decide (k' = k)) as [-> | Hne]; simpl; [reflexivity |].
  rewrite IH. by destruct (Map_get k m).
Qed.

Lemma Map_set_NoDup (k : AnyValue) (n : Z) (m : JSMap) :
  NoDup (map fst m) -> NoDup (map fst (Map_set k n m)).
Proof.
  intros Hnd. rewrite Map_set_keys. unfold Map_has.
  destruct (Map_get k m) eqn:Hget; [exact Hnd |].
  apply Map_get_None in Hget. apply NoDup_app. split; [exact Hnd |].
  split; [| apply NoDup_singleton].
  intros x Hx Hx'. apply list_elem_of_singleton in Hx'. by subst.
Qed.

Lemma Map_set_total (k : AnyValue) (n : Z) (m : JSMap) :
  total (Map_set k n m) = total m - default 0 (Map_get k m) + n.
Proof.
  unfold total. induction m as [| [k' n'] m IH]; simpl; [lia |].
  destruct (decide (k' = k)); simpl; lia.
Qed.

(** Both branches of [countResponse] amount to one update. *)
Lemma countResponse_set (m : JSMap) (item : SelectedDatum) :
  countResponse m item
  = Map_set (value item) (default 0 (Map_get (value item) m) + 1) m.
Proof.
  unfold countResponse, Map_has. by destruct (Map_get (value item) m).
Qed.

Lemma counts_of_nil : counts_of [] [].
Proof. split; [apply NoDup_nil_2 | split; [intros v |]; reflexivity]. Qed.

Lemma counts_of_step (seen : list SelectedDatum) (m : JSMap) (item : SelectedDatum) :
  counts_of seen m -> counts_of (seen ++ [item]) (countResponse m item).
Proof.
  intros (Hnd & Hget & Htot). rewrite countResponse_set.
  split; [by apply Map_set_NoDup |]. split.
  - intros v. unfold occurrences in *. rewrite map_app, count_occ_app. simpl.
    destruct (AnyValue_eq_dec (value item) v) as [<- | Hne].
    + rewrite Map_get_set_eq, Hget.
      repeat case_decide; simpl; try lia; f_equal; lia.
    + rewrite Map_get_set_ne by exact Hne. rewrite Hget.
      repeat case_decide; simpl; try lia; f_equal; lia.
  - rewrite Map_set_total, Htot, length_app. simpl. lia.
Qed.

Lemma counts_of_fold (items seen : list SelectedDatum) (m : JSMap) :
  counts_of seen m ->
  counts_of (seen ++ items) (fold_left countResponse items m).
Proof.
  revert seen m. induction items as [| item items IH]; intros seen m H; simpl.
  - by rewrite app_nil_r.
  - replace (seen ++ item :: items)%list with ((seen ++ [item]) ++ items)%list
      by (by rewrite <- app_assoc).
    apply IH. by apply counts_of_step.
Qed.

(** The sort rearranges its input and nothing more. *)
Lemma sort_insert_Permutation {A : Type} (cmp : A -> A -> Z) (x : A) (l : list A) :
  sort_insert cmp x l ≡ₚ x :: l.
Proof.
  induction l as [| y l IH]; simpl; [reflexivity |].
  case_decide; [| reflexivity].
  rewrite IH. apply Permutation_swap.
Qed.

Lemma Array_sort_Permutation {A : Type} (cmp : A -> A -> Z) (l : list A) :
  Array_sort cmp l ≡ₚ l.
Proof.
  unfold Array_sort. induction l as [| x l IH]; simpl; [reflexivity |].
  by rewrite sort_insert_Permutation, IH.
Qed.

Lemma sort_insert_by_popularity (x : AnyValue * Z) (l : list (AnyValue * Z)) :
  by_popularity l ->
  by_popularity (sort_insert (fun a b => snd b - snd a) x l).
Proof.
  unfold by_popularity.
  induction l as [| y l IH]; simpl; intros Hs.
  - apply SSorted_cons; [apply SSorted_nil | apply List.Forall_nil].
  - apply StronglySorted_inv in Hs as [Hs Hy]. case_decide as Hcmp.
    + apply SSorted_cons; [by apply IH |].
      rewrite sort_insert_Permutation. apply List.Forall_cons; [lia | exact Hy].
    + apply SSorted_cons; [by apply SSorted_cons |].
      apply List.Forall_cons; [lia |].
      eapply List.Forall_impl; [| exact Hy]. simpl. intros z Hz. lia.
Qed.

Lemma Array_sort_by_popularity (l : list (AnyValue * Z)) :
  by_popularity (Array_sort (fun a b => snd b - snd a) l).
Proof.
  unfold Array_sort. induction l as [| x l IH]; simpl;
    [apply SSorted_nil | by apply sort_insert_by_popularity].
Qed.

(** Building a [Map] from entries with distinct keys keeps them as they
    are. *)
Lemma Map_of_entries_app (es m : list (AnyValue * Z)) :
  NoDup (map fst (m ++ es)) ->
  fold_left (fun m e => Map_set (fst e) (snd e) m) es m = (m ++ es)%list.
Proof.
  revert m. induction es as [| [k n] es IH]; intros m Hnd; simpl.
  - by rewrite app_nil_r.
  - replace (m ++ (k, n) :: es)%list with ((m ++ [(k, n)]) ++ es)%list in *
      by (by rewrite <- app_assoc).
    rewrite Map_set_fresh.
    + by apply IH.
    + rewrite !map_app in Hnd. apply NoDup_app in Hnd as [Hnd _].
      apply NoDup_app in Hnd as (_ & Hdisj & _).
      intros Hin. apply (Hdisj k Hin). simpl. apply list_elem_of_here.
Qed.

Lemma Map_of_entries_NoDup (es : list (AnyValue * Z)) :
  NoDup (map fst es) -> Map_of_entries es = es.
Proof. intros Hnd. unfold Map_of_entries. by rewrite Map_of_entries_app. Qed.

(** Lookup and total do not depend on the order of distinct-keyed entries. *)
Lemma Map_get_Permutation (k : AnyValue) (m m' : JSMap) :
  NoDup (map fst m) -> m' ≡ₚ m -> Map_get k m' = Map_get k m.
Proof.
  intros Hnd Hp.
  assert (Hnd' : NoDup (map fst m')) by (by rewrite Hp).
  apply option_eq. intros n.
  rewrite !Map_get_Some by assumption. by rewrite Hp.
Qed.

Lemma total_Permutation (m m' : JSMap) : m' ≡ₚ m -> total m' = total m.
Proof.
  unfold total.
  induction 1 as [| x l l' _ IH | x y l | l l' l'' _ IH1 _ IH2]; simpl; lia.
Qed.

Lemma occurrences_zero (v : AnyValue) (originalData : list SelectedDatum) :
  occurrences v originalData = 0 <-> v ∉ map value originalData.
Proof.
  unfold occurrences.
  rewrite list_elem_of_In, (count_occ_not_In AnyValue_eq_dec). lia.
Qed.

(** C9: [getUniqueResponses] has one entry per distinct response of
    [originalData], holding the number of its occurrences; the counts add up
    to the length of the data; the entries come in order of non-increasing
    count. *)
Theorem getUniqueResponses_counts_by_popularity (originalData : list SelectedDatum) :
  NoDup (map fst (getUniqueResponses originalData))
  /\ (forall v, v ∈ map fst (getUniqueResponses originalData)
                <-> v ∈ map value originalData)
  /\ (forall v, Map_get v (getUniqueResponses originalData)
                = if decide (v ∈ map value originalData)
                  then Some (occurrences v originalData) else None)
  /\ total (getUniqueResponses originalData) = Z.of_nat (length originalData)
  /\ by_popularity (getUniqueResponses originalData).
Proof.
  destruct (counts_of_fold originalData [] [] counts_of_nil)
    as (Hnd & Hget & Htot). simpl in Hnd, Hget, Htot.
  set (m := fold_left countResponse originalData []) in *.
  set (cmp := fun a b : AnyValue * Z => snd b - snd a).
  assert (Hp : Array_sort cmp m ≡ₚ m) by apply Array_sort_Permutation.
  assert (Hnd' : NoDup (map fst (Array_sort cmp m))) by (by rewrite Hp).
  assert (Hr : getUniqueResponses originalData = Array_sort cmp m).
  { unfold getUniqueResponses. fold m cmp. by apply Map_of_entries_NoDup. }
  rewrite Hr.
  assert (Hlook : forall v, Map_get v (Array_sort cmp m)
                = if decide (v ∈ map value originalData)
                  then Some (occurrences v originalData) else None).
  { intros v. rewrite (Map_get_Permutation v m) by assumption. rewrite Hget.
    pose proof (occurrences_zero v originalData).
    repeat case_decide; tauto. }
  split; [exact Hnd' |]. split; [| split; [exact Hlook |]].
  - intros v. specialize (Hlook v).
    destruct (decide (v ∈ map value originalData)) as [Hin | Hnin].
    + split; [done | intros _].
      destruct (decide (v ∈ map fst (Array_sort cmp m))) as [? | Hno]; [done |].
      apply Map_get_None in Hno. congruence.
    + apply Map_get_None in Hlook. tauto.
  - split; [| apply Array_sort_by_popularity].
    by rewrite (total_Permutation m) by exact Hp.
Qed.

End UniqueResponses.

(** *** How the handlers compose *)

Section Handlers.

Variable t : string -> string.
Variable String_replace : string -> string -> string -> string.
Variable props : Props.

Local Abbreviation saveOverride := (saveOverride t String_replace props).
Local Abbreviation goBackToList := (goBackToList t String_replace props).
Local Abbreviation selectQuestion := (selectQuestion t String_replace props).
Local Abbreviation run_events := (run_events t String_replace props).

(** Pressing [Edit] selects the question and loads its override, if any. *)
Lemma selectQuestion_run (w : World) (q : Question) :
  exists w',
    selectQuestion q w = Return tt w'
    /\ state w' = set_selection (Some q)
                                (obj_get (overridesObject (state w)) (name q))
                                (state w)
    /\ unlisteners w' = unlisteners w
    /\ listeners w' = listeners w.
Proof. eexists. split; [reflexivity |]. simpl. auto. Qed.

Lemma onRowOverrideChange_selected (w : World) (q : Question) (v : AnyValue) :
  selectedQuestion (state w) = Some q ->
  exists w',
    onRowOverrideChange (name q) v w = Return tt w'
    /\ state w' = set_selectedQuestionOverride (chosen v) (state w)
    /\ unlisteners w' = unlisteners w
    /\ listeners w' = listeners w
    /\ effects w' = effects w.
Proof.
  intros Hq. unfold onRowOverrideChange, chosen. run. rewrite Hq.
  rewrite decide_True by reflexivity.
  destruct (decide (v = VUndefined)); eexists; (split; [reflexivity |]);
    simpl; auto.
Qed.

Lemma is_storable_primitive (v : JSValue) :
  is_storable v = true
  <-> v = VNull \/ exists s, v = VString s /\ 1 <= String.length s.
Proof.
  rewrite is_storable_spec. split.
  - intros [H | (s & H & Hlen)]; [left | right; exists s; split]; congruence.
  - intros [-> | (s & -> & Hlen)]; [by left | right; by exists s].
Qed.

(** What the prototype gives never passes the test of [saveOverride]. *)
Lemma inherited_not_storable (p : Prototype) (k : string) :
  is_storable (inherited p k) = false.
Proof.
  unfold inherited. destruct p; [| reflexivity].
  case_decide; [reflexivity |]. case_bool_decide; reflexivity.
Qed.

(** Opening a question and saving at once changes no override, provided
    the overrides hold storable values only. *)
Lemma select_save_storable (w : World) (q : Question) :
  map_Forall (fun _ (v : JSValue) => is_storable v = true) (overrides (state w)) ->
  exists w',
    (selectQuestion q ;; saveOverride) w = Return tt w'
    /\ overrides (state w') = overrides (state w).
Proof.
  intros Hinv. unfold bind.
  destruct (selectQuestion_run w q) as (w1 & -> & Hs1 & _).
  assert (Hq : selectedQuestion (state w1) = Some q) by (by rewrite Hs1).
  destruct (saveOverride_selected t String_replace props w1 q Hq)
    as (w' & Hrun & Hov & _).
  exists w'. split; [exact Hrun |]. rewrite Hov, Hs1. simpl.
  unfold obj_get, overridesObject. simpl.
  destruct (overrides (state w) !! name q) as [v |] eqn:Hv; simpl.
  - rewrite (Hinv _ _ Hv).
    rewrite decide_False by (intros [_ ?]; discriminate).
    by apply insert_id.
  - rewrite inherited_not_storable. by apply delete_id.
Qed.

(** X1: whatever the form has been through since its construction, pressing
    [Edit] on a question and then [Save] without touching the value leaves
    the overrides as they were. *)
Theorem reopen_and_save_changes_nothing
    (es : list Event) (registry : gmap positive (ActionEvent * Callback))
    (q : Question) :
  overrides (state (run_events (es ++ [select q; save]) (constructor registry)))
  = overrides (state (run_events es (constructor registry))).
Proof.
  assert (Happ : forall es1 es2 w,
            run_events (es1 ++ es2) w = run_events es2 (run_events es1 w)).
  { induction es1 as [| e es1 IH]; intros es2 w; simpl; [reflexivity | apply IH]. }
  rewrite Happ. set (w := run_events es (constructor registry)).
  assert (Hinv : map_Forall (fun _ (v : JSValue) => is_storable v = true)
                            (overrides (state w))).
  { apply run_events_keeps_storable. apply map_Forall_empty. }
  destruct (select_save_storable w q Hinv) as (w' & Hrun & Hov).
  unfold bind in Hrun.
  change (run_events [select q; save] w)
    with (world_of (saveOverride (world_of (selectQuestion q w)))).
  destruct (selectQuestion_run w q) as (w1 & Hsel & _).
  rewrite Hsel in Hrun |- *.
  change (world_of (Return tt w1)) with w1.
  by rewrite Hrun.
Qed.

(** X2: for a question whose name is not [__proto__], choosing a value,
    saving and opening the question again shows that value when it can be
    stored (the sentinel for [undefined] or [null], a non-empty string as it
    is); otherwise the key is gone and the question shows what a missing
    key reads, [undefined] or, for a name such as [constructor], the member
    of [Object.prototype].  Either way a typed text comes back in the text
    box, the empty text included. *)
Theorem save_then_reopen (w : World) (q : Question) (v : AnyValue) (s : string) :
  name q <> "__proto__" ->
  (exists w',
     (selectQuestion q ;; onRowOverrideChange (name q) v ;; saveOverride ;;
      selectQuestion q) w = Return tt w'
     /\ selectedQuestion (state w') = Some q
     /\ selectedQuestionOverride (state w')
        = (if is_storable (chosen v) then chosen v
           else inherited Object_prototype (name q)))
  /\ (exists w',
        (selectQuestion q ;; onRowOverrideChange (name q) (VString s) ;;
         saveOverride ;; selectQuestion q) w = Return tt w'
        /\ inputValue (selectedQuestionOverride (state w')) = s).
Proof.
  intros Hname.
  assert (Hgen : forall v, exists w',
     (selectQuestion q ;; onRowOverrideChange (name q) v ;; saveOverride ;;
      selectQuestion q) w = Return tt w'
     /\ selectedQuestion (state w') = Some q
     /\ selectedQuestionOverride (state w')
        = (if is_storable (chosen v) then chosen v
           else inherited Object_prototype (name q))).
  { clear v. intros v. unfold bind.
    destruct (selectQuestion_run w q) as (w1 & -> & Hs1 & _).
    assert (Hq1 : selectedQuestion (state w1) = Some q) by (by rewrite Hs1).
    destruct (onRowOverrideChange_selected w1 q v Hq1) as (w2 & -> & Hs2 & _).
    assert (Hq2 : selectedQuestion (state w2) = Some q) by (by rewrite Hs2).
    destruct (saveOverride_selected_object t String_replace props w2 q Hq2)
      as (w3 & -> & Hobj3 & _).
    destruct (selectQuestion_run w3 q) as (w4 & -> & Hs4 & _).
    exists w4. split; [reflexivity |]. rewrite Hs4. simpl.
    split; [reflexivity |].
    rewrite Hobj3, Hs2. simpl.
    destruct (is_storable (chosen v)) eqn:Hst.
    - unfold obj_set. rewrite decide_False by exact Hname.
      unfold obj_get. simpl. rewrite lookup_insert_eq.
      symmetry. by apply is_storable_stored.
    - unfold obj_get, obj_delete. simpl. by rewrite lookup_delete_eq. }
  split; [apply Hgen |].
  destruct (Hgen (VString s)) as (w' & Hrun & _ & Hval).
  exists w'. split; [exact Hrun |]. rewrite Hval. unfold chosen.
  rewrite decide_False by discriminate.
  destruct s as [| c s']; [| reflexivity].
  simpl. unfold inherited. rewrite decide_False by exact Hname.
  case_bool_decide; reflexivity.
Qed.

(** X3: [Back] drops the value chosen for the open question: the overrides
    and the pending flag are what they were before the question was opened,
    and nothing is selected any more. *)
Theorem back_discards_the_edit (w : World) (q : Question) (v : AnyValue) :
  exists w',
    (selectQuestion q ;; onRowOverrideChange (name q) v ;; goBackToList) w
      = Return tt w'
    /\ overrides (state w') = overrides (state w)
    /\ isPending (state w') = isPending (state w)
    /\ selectedQuestion (state w') = None
    /\ selectedQuestionOverride (state w') = VNull.
Proof.
  unfold bind.
  destruct (selectQuestion_run w q) as (w1 & -> & Hs1 & _).
  assert (Hq1 : selectedQuestion (state w1) = Some q) by (by rewrite Hs1).
  destruct (onRowOverrideChange_selected w1 q v Hq1) as (w2 & -> & Hs2 & _).
  eexists. split; [reflexivity |]. simpl. rewrite Hs2, Hs1. simpl. auto.
Qed.

(** X4: [onRowOverrideChange] and [saveOverride] throw when no question is
    selected, and a change reported for a question other than the selected
    one is ignored; in each case the component is left exactly as it was. *)
Theorem change_for_unselected_question (w : World) (questionName : string)
    (v : AnyValue) :
  (selectedQuestion (state w) = None ->
     onRowOverrideChange questionName v w = TypeError w
     /\ saveOverride w = TypeError w)
  /\ (forall q, selectedQuestion (state w) = Some q ->
        questionName <> name q ->
        onRowOverrideChange questionName v w = Return tt w).
Proof.
  split.
  - intros Hq. split; [| by apply saveOverride_unselected].
    unfold onRowOverrideChange. run. by rewrite Hq.
  - intros q Hq Hne. unfold onRowOverrideChange. run. rewrite Hq.
    by rewrite decide_False.
Qed.

(** X5: unmounting calls every unlistener of the list once, in order;
    afterwards none of their registrations is left, every other
    registration is untouched, and the component's state is unchanged. *)
Theorem unmount_unregisters_all (w : World) :
  exists w',
    componentWillUnmount w = Return tt w'
    /\ effects w' = (effects w ++ map unlistenerCalled (unlisteners w))%list
    /\ Forall (fun h => listeners w' !! h = None) (unlisteners w)
    /\ (forall h, h ∉ unlisteners w -> listeners w' !! h = listeners w !! h)
    /\ state w' = state w.
Proof.
  unfold componentWillUnmount. rewrite forEach_callUnlistener.
  eexists. split; [reflexivity |]. simpl. split; [reflexivity |].
  assert (Hfold : forall hs (m : gmap positive (ActionEvent * Callback)) h,
            foldl (fun m h => delete h m) m hs !! h
            = if decide (h ∈ hs) then None else m !! h).
  { induction hs as [| h0 hs IH]; intros m h.
    - destruct (decide (h ∈ [])) as [Hin | _]; [| reflexivity].
      by apply elem_of_nil in Hin.
    - change (foldl (fun m h => delete h m) m (h0 :: hs))
        with (foldl (fun m h => delete h m) (delete h0 m) hs).
      rewrite IH.
      destruct (decide (h ∈ hs)) as [Hin | Hnin];
        destruct (decide (h ∈ h0 :: hs)) as [Hin' | Hnin']; try reflexivity.
      + exfalso. apply Hnin'. by right.
      + apply elem_of_cons in Hin' as [-> | ?]; [| done].
        apply lookup_delete_eq.
      + apply lookup_delete_ne. intros ->. apply Hnin'. by left. }
  split; [| split; [| reflexivity]].
  - apply Forall_forall. intros h Hh. rewrite Hfold. by rewrite decide_True.
  - intros h Hh. rewrite Hfold. by rewrite decide_False.
Qed.

Lemma saveOverride_selected_effects (w : World) (q : Question) :
  selectedQuestion (state w) = Some q ->
  exists w' title,
    saveOverride w = Return tt w'
    /\ effects w' = (effects w ++ [onSetModalTitle title])%list
    /\ isPending (state w') = isPending (state w).
Proof.
  intros Hq. unfold BulkEdit.saveOverride, BulkEdit.goBackToList,
    setModalTitleToList. run. rewrite Hq.
  destruct (is_storable (selectedQuestionOverride (state w))); simpl;
    eexists; eexists; (split; [reflexivity |]); simpl; auto.
Qed.

Lemma unlistenerCalled_no_close (hs : list positive) :
  modalCloses (map unlistenerCalled hs) = []
  /\ patchCalls (map unlistenerCalled hs) = [].
Proof.
  unfold modalCloses, patchCalls.
  induction hs as [| h hs [IH1 IH2]]; simpl; [by split |].
  rewrite !filter_cons. simpl. by split.
Qed.

(** What one event does to the pending flag and to the calls of
    [onModalClose] and [bulkPatchValues]. *)
Lemma handle_step (e : Event) (w : World) :
  isPending (state (world_of (handle t String_replace props e w)))
  = pending_after [e] (isPending (state w))
  /\ modalCloses (effects (world_of (handle t String_replace props e w)))
     = (modalCloses (effects w)
        ++ (if is_completed e then [onModalClose] else []))%list
  /\ patchCalls (effects (world_of (handle t String_replace props e w)))
     = (patchCalls (effects w)
        ++ (if is_submit e
            then [bulkPatchValues (asset_uid props) (selectedSubmissions props)
                                  (overrides (state w))]
            else []))%list.
Proof.
  assert (Hone : forall tr x, is_close x = false -> is_patch x = false ->
            modalCloses (tr ++ [x]) = (modalCloses tr ++ [])%list
            /\ patchCalls (tr ++ [x]) = (patchCalls tr ++ [])%list).
  { intros tr x Hc Hp. unfold modalCloses, patchCalls.
    rewrite !filter_app, !filter_cons, !filter_nil.
    rewrite !decide_False by congruence. by split. }
  assert (Hnone : forall tr,
            modalCloses tr = (modalCloses tr ++ [])%list
            /\ patchCalls tr = (patchCalls tr ++ [])%list).
  { intros tr. by rewrite !app_nil_r. }
  destruct e; simpl; (split; [try reflexivity |]);
    try (apply Hnone); try (apply Hone; reflexivity).
  - unfold componentWillUnmount. by rewrite forEach_callUnlistener.
  - unfold componentWillUnmount. rewrite forEach_callUnlistener. simpl.
    unfold modalCloses, patchCalls. rewrite !filter_app.
    destruct (unlistenerCalled_no_close (unlisteners w)) as [H1 H2].
    unfold modalCloses, patchCalls in H1, H2. by rewrite H1, H2.
  - unfold modalCloses, patchCalls.
    rewrite !filter_app, !filter_cons, !filter_nil. simpl.
    by rewrite app_nil_r.
  - unfold onRowOverrideChange. run.
    destruct (selectedQuestion (state w)); [| reflexivity].
    repeat case_decide; reflexivity.
  - unfold onRowOverrideChange. run.
    destruct (selectedQuestion (state w)); [| apply Hnone].
    repeat case_decide; apply Hnone.
  - unfold modalCloses, patchCalls.
    rewrite !filter_app, !filter_cons, !filter_nil. simpl.
    by rewrite app_nil_r.
  - destruct (selectedQuestion (state w)) as [q |] eqn:Hq.
    + destruct (saveOverride_selected_effects w q Hq) as (w' & ti & Hrun & _ & Hp).
      by rewrite Hrun.
    + by rewrite saveOverride_unselected.
  - destruct (selectedQuestion (state w)) as [q |] eqn:Hq.
    + destruct (saveOverride_selected_effects w q Hq) as (w' & ti & Hrun & He & _).
      rewrite Hrun. simpl. rewrite He. by apply Hone.
    + rewrite saveOverride_unselected by exact Hq. apply Hnone.
Qed.

Lemma run_events_app (es1 es2 : list Event) (w : World) :
  run_events (es1 ++ es2) w = run_events es2 (run_events es1 w).
Proof.
  revert w. induction es1 as [| e es1 IH]; intros w; simpl;
    [reflexivity | apply IH].
Qed.

(** X6: the pending flag is raised by [onSubmit], lowered by the completion
    and by the failure of the action, and touched by no other handler,
    whether it returns or throws. *)
Theorem pending_follows_the_action (es : list Event) (w : World) :
  isPending (state (run_events es w)) = pending_after es (isPending (state w)).
Proof.
  revert w. induction es as [| e es IH]; intros w; [reflexivity |].
  change (run_events (e :: es) w)
    with (run_events es (world_of (handle t String_replace props e w))).
  rewrite IH. destruct (handle_step e w) as [-> _].
  by destruct e.
Qed.

(** X7: over any sequence of events the modal is closed once per completion
    of the action and at no other time, and [bulkPatchValues] is called once
    per [onSubmit] and at no other time. *)
Theorem closes_and_patches_counted (es : list Event) (w : World) :
  length (modalCloses (effects (run_events es w)))
  = length (modalCloses (effects w))
    + length (filter (fun e => is_completed e = true) es)
  /\ length (patchCalls (effects (run_events es w)))
     = length (patchCalls (effects w))
       + length (filter (fun e => is_submit e = true) es).
Proof.
  revert w. induction es as [| e es IH]; intros w.
  - simpl. lia.
  - change (run_events (e :: es) w)
      with (run_events es (world_of (handle t String_replace props e w))).
    destruct (IH (world_of (handle t String_replace props e w))) as [-> ->].
    destruct (handle_step e w) as (_ & -> & ->).
    rewrite !length_app, !filter_cons.
    destruct e; simpl; lia.
Qed.

Local Abbreviation patch_ok := (patch_ok props).

Lemma run_events_patch_ok (es : list Event) (w : World) :
  map_Forall (fun _ (v : JSValue) => is_storable v = true) (overrides (state w)) ->
  Forall patch_ok (patchCalls (effects w)) ->
  Forall patch_ok (patchCalls (effects (run_events es w))).
Proof.
  revert w. induction es as [| e es IH]; intros w Hinv Hok; [exact Hok |].
  change (run_events (e :: es) w)
    with (run_events es (world_of (handle t String_replace props e w))).
  apply IH; [by apply handle_keeps_storable |].
  destruct (handle_step e w) as (_ & _ & ->).
  apply Forall_app. split; [exact Hok |].
  destruct (is_submit e); [| apply Forall_nil_2].
  apply Forall_singleton. by eexists.
Qed.

(** X8: every [bulkPatchValues] call the form ever makes is for the asset's
    uid and the whole list of selected submissions, and carries no value
    other than the sentinel and non-empty strings. *)
Theorem every_patch_request_is_well_formed
    (es : list Event) (registry : gmap positive (ActionEvent * Callback)) :
  Forall (fun e =>
            exists data,
              e = bulkPatchValues (asset_uid props) (selectedSubmissions props)
                                  data
              /\ map_Forall (fun _ v => v = VNull
                                        \/ exists s, v = VString s
                                                     /\ 1 <= String.length s)
                            data)
         (patchCalls (effects (run_events es (constructor registry)))).
Proof.
  eapply Forall_impl.
  - apply run_events_patch_ok; [apply map_Forall_empty | apply Forall_nil_2].
  - intros e (data & -> & Hdata). exists data. split; [reflexivity |].
    intros k v Hk. apply is_storable_primitive. exact (Hdata k v Hk).
Qed.

Lemma Object_keys_empty (o : gmap string JSValue) :
  length (Object_keys o) = 0 <-> o = ∅.
Proof.
  unfold Object_keys.
  by rewrite length_fmap, length_zero_iff_nil, map_to_list_empty_iff.
Qed.

Lemma footerDisabled_spec (s : State) :
  footerDisabled s = isPending s || bool_decide (overrides s = ∅).
Proof.
  unfold footerDisabled. f_equal. apply bool_decide_ext, Object_keys_empty.
Qed.

(** X9: the [Discard Changes] and [Confirm & close] buttons are disabled
    on a new form, after [onReset] and after [onSubmit]; saving a storable
    value for a question whose name is not [__proto__] on a form that is
    not pending enables them, while saving one for a question named
    [__proto__] leaves them as they were; after a failure of the action
    they are enabled exactly when there are overrides, so the request can
    be sent again. *)
Theorem footer_buttons :
  (forall registry, footerDisabled (state (constructor registry)) = true)
  /\ (forall w, footerDisabled (state (world_of (onReset w))) = true)
  /\ (forall w, footerDisabled (state (world_of (onSubmit props w))) = true)
  /\ (forall w q,
        selectedQuestion (state w) = Some q ->
        is_storable (selectedQuestionOverride (state w)) = true ->
        name q <> "__proto__" ->
        footerDisabled (state (world_of (saveOverride w)))
        = isPending (state w))
  /\ (forall w q,
        selectedQuestion (state w) = Some q ->
        is_storable (selectedQuestionOverride (state w)) = true ->
        name q = "__proto__" ->
        overrides (state w) !! "__proto__" = None ->
        footerDisabled (state (world_of (saveOverride w)))
        = footerDisabled (state w))
  /\ (forall w, footerDisabled (state (world_of (onBulkPatchValuesFailed w)))
                = bool_decide (overrides (state w) = ∅)).
Proof.
  split; [| split; [| split; [| split; [| split]]]].
  - intros registry. rewrite footerDisabled_spec. reflexivity.
  - intros w. rewrite footerDisabled_spec. simpl.
    rewrite bool_decide_eq_true_2 by reflexivity. apply orb_true_r.
  - intros w. reflexivity.
  - intros w q Hq Hst Hname. rewrite footerDisabled_spec.
    destruct (saveOverride_selected t String_replace props w q Hq)
      as (w' & -> & Hov & _ & Hp). simpl. rewrite Hov, Hst, Hp.
    rewrite decide_False by (intros [? _]; contradiction).
    rewrite bool_decide_eq_false_2; [apply orb_false_r |].
    intros Hempty.
    assert (Hl : (<[name q := stored (selectedQuestionOverride (state w))]>
                    (overrides (state w)) : gmap string JSValue) !! name q
                 = None) by (by rewrite Hempty).
    by rewrite lookup_insert_eq in Hl.
  - intros w q Hq Hst Hname Hnone. rewrite !footerDisabled_spec.
    destruct (saveOverride_selected t String_replace props w q Hq)
      as (w' & -> & Hov & _ & Hp). simpl. rewrite Hov, Hst, Hp.
    rewrite decide_True; [reflexivity |]. split; [exact Hname |].
    by rewrite Hname.
  - intros w. rewrite footerDisabled_spec. reflexivity.
Qed.

End Handlers.

(** *** The list of questions *)

Section ListView.

Variable t : string -> string.

Lemma typeof_undefined (v : AnyValue) :
  typeof_any v = "undefined" <-> v = VUndefined.
Proof. destruct v as [[| |b|n|s] | |m]; simpl; split; congruence. Qed.

(** The set built by [renderDataValues] holds each shown value once. *)
Lemma uniqueValues_spec (rowData : list SelectedDatum) (init : list AnyValue) :
  NoDup init ->
  NoDup (fold_left (fun set item => Set_add (shownValue t item) set) rowData init)
  /\ forall x,
       x ∈ fold_left (fun set item => Set_add (shownValue t item) set) rowData init
       <-> x ∈ init \/ x ∈ map (shownValue t) rowData.
Proof.
  revert init. induction rowData as [| item rowData IH]; intros init Hnd; simpl.
  - split; [exact Hnd |]. intros x. rewrite elem_of_nil. tauto.
  - assert (Hadd : NoDup (Set_add (shownValue t item) init)
                   /\ forall x, x ∈ Set_add (shownValue t item) init
                                <-> x ∈ init \/ x = shownValue t item).
    { unfold Set_add. case_bool_decide as Hin.
      - split; [exact Hnd |]. intros x. split; [tauto |].
        intros [? | ->]; assumption.
      - split.
        + apply NoDup_app. split; [exact Hnd |].
          split; [| apply NoDup_singleton].
          intros x Hx Hx'. apply list_elem_of_singleton in Hx'. by subst.
        + intros x. rewrite elem_of_app, list_elem_of_singleton. tauto. }
    destruct Hadd as [Hnd' Hmem].
    destruct (IH _ Hnd') as [Hnd'' Hmem'].
    split; [exact Hnd'' |]. intros x.
    rewrite Hmem', Hmem, elem_of_cons. tauto.
Qed.

(** X10: a response cell shows, with the blue dot, whatever
    [overrides[questionName]] reads when that is not [undefined]: the
    override of the question when there is one (the "n/d" label for the
    sentinel), and for a question without override the member of
    [Object.prototype] when the name is one of its members.  When the read
    gives [undefined] the cell shows the one value all selected rows agree
    on (a row without a value counting as the "n/d" label), and the
    "multiple responses" label when two rows differ or when there is no row
    at all. *)
Theorem renderDataValues_cases (s : State) (questionName : string)
    (rowData : list SelectedDatum) :
  (forall v : JSValue,
     overrides s !! questionName = Some v -> v <> VUndefined ->
     renderDataValues t s questionName rowData
     = UpdatedResponse (if decide (v = VNull)
                        then VString (EMPTY_VALUE_LABEL t) else v))
  /\ (overrides s !! questionName = None ->
      inherited (overridesProto s) questionName <> VUndefined ->
      renderDataValues t s questionName rowData
      = UpdatedResponse (inherited (overridesProto s) questionName))
  /\ (obj_get (overridesObject s) questionName = VUndefined ->
      (rowData = [] ->
         renderDataValues t s questionName rowData
         = OriginalResponse (VString (MULTIPLE_VALUES_LABEL t)))
      /\ (forall d, rowData <> [] ->
            Forall (fun item => shownValue t item = d) rowData ->
            renderDataValues t s questionName rowData = OriginalResponse d)
      /\ (forall item1 item2, item1 ∈ rowData -> item2 ∈ rowData ->
            shownValue t item1 <> shownValue t item2 ->
            renderDataValues t s questionName rowData
            = OriginalResponse (VString (MULTIPLE_VALUES_LABEL t)))).
Proof.
  split; [| split].
  - intros v Hv Hdef. unfold renderDataValues.
    rewrite (obj_get_present (overridesObject s) _ _ Hv).
    rewrite decide_True
      by (rewrite typeof_undefined; intros [= ?]; contradiction).
    destruct (decide (v = VNull)) as [-> | Hn].
    + by rewrite decide_True.
    + rewrite decide_False; [reflexivity | intros [= ?]; contradiction].
  - intros Hnone Hinh. unfold renderDataValues.
    rewrite (obj_get_absent (overridesObject s) _ Hnone). simpl.
    rewrite decide_True by (by rewrite typeof_undefined).
    rewrite decide_False; [reflexivity | apply inherited_not_null].
  - intros Hnone. unfold renderDataValues. rewrite Hnone.
    rewrite decide_False by (intros H; by apply H).
    destruct (uniqueValues_spec rowData [] (NoDup_nil_2)) as [Hnd Hmem].
    set (u := fold_left (fun set item => Set_add (shownValue t item) set)
                        rowData []) in *.
    split; [| split].
    + intros ->. reflexivity.
    + intros d Hne Hall.
      assert (Hd : forall x, x ∈ u <-> x = d).
      { intros x. rewrite Hmem, elem_of_nil, list_elem_of_fmap. split.
        - intros [[] | (item & -> & Hin)].
          by apply (proj1 (Forall_forall _ _) Hall).
        - intros ->. right. destruct rowData as [| item rowData]; [done |].
          exists item. split; [| by left].
          symmetry. apply (proj1 (Forall_forall _ _) Hall). by left. }
      destruct u as [| x [| y u']].
      * exfalso. by apply (not_elem_of_nil d), Hd.
      * f_equal. apply Hd. by left.
      * exfalso. apply NoDup_cons in Hnd as [Hx _]. apply Hx.
        assert (x = d) as -> by (apply Hd; by left).
        assert (y = d) as -> by (apply Hd; right; by left).
        by left.
    + intros item1 item2 H1 H2 Hdiff.
      assert (Hu1 : shownValue t item1 ∈ u).
      { apply Hmem. right. apply list_elem_of_fmap. by exists item1. }
      assert (Hu2 : shownValue t item2 ∈ u).
      { apply Hmem. right. apply list_elem_of_fmap. by exists item2. }
      destruct u as [| x [| y u']]; [reflexivity | | reflexivity].
      apply list_elem_of_singleton in Hu1, Hu2. congruence.
Qed.

End ListView.

(** The rows pushed for the data, where every row could be decided. *)
Lemma selectedRows_spec (props : Props) (questionPath : AnyValue)
    (data : list (gmap string JSValue)) (rows : list (option SelectedDatum)) :
  Forall2 (fun submissionData r =>
             selectedRow props questionPath submissionData = Some r)
          data rows ->
  map sid (omap id rows)
  = filter (fun i => isSelectedId props i = true)
           (map (fun submissionData => obj_get (plain submissionData) "_id")
                data)
  /\ Forall (fun row =>
               exists submissionData key,
                 submissionData ∈ data
                 /\ sid row = obj_get (plain submissionData) "_id"
                 /\ isSelectedId props (sid row) = true
                 /\ String_of questionPath = Some key
                 /\ value row = obj_get (plain submissionData) key)
            (omap id rows).
Proof.
  induction 1 as [| submissionData r data rows Hrow _ [IH1 IH2]];
    [split; [reflexivity | apply Forall_nil_2] |].
  assert (Hweak : Forall (fun row =>
               exists sub key,
                 sub ∈ submissionData :: data
                 /\ sid row = obj_get (plain sub) "_id"
                 /\ isSelectedId props (sid row) = true
                 /\ String_of questionPath = Some key
                 /\ value row = obj_get (plain sub) key)
            (omap id rows)).
  { eapply Forall_impl; [exact IH2 |].
    intros row (sub & key & Hin & Hrest). exists sub, key.
    split; [by right | exact Hrest]. }
  unfold selectedRow in Hrow.
  destruct (String_of (obj_get (plain submissionData) "_id")) as [ids |] eqn:Hid;
    [| discriminate].
  assert (Hselid : isSelectedId props (obj_get (plain submissionData) "_id")
                   = bool_decide (ids ∈ selectedSubmissions props))
    by (unfold isSelectedId; by rewrite Hid).
  change (map (fun sub => obj_get (plain sub) "_id") (submissionData :: data))
    with (obj_get (plain submissionData) "_id"
          :: map (fun sub => obj_get (plain sub) "_id") data).
  rewrite filter_cons.
  destruct (decide (isSelectedId props (obj_get (plain submissionData) "_id")
                    = true)) as [Hyes | Hno]; rewrite Hselid in *.
  - rewrite Hyes in Hrow.
    destruct (String_of questionPath) as [key |] eqn:Hkey; [| discriminate].
    injection Hrow as <-.
    change (omap id (Some ?x :: rows)) with (x :: omap id rows).
    split; [simpl; by rewrite <- IH1 |].
    apply Forall_cons. split; [| exact Hweak].
    exists submissionData, key. split; [by left |]. split; [reflexivity |].
    simpl. rewrite Hselid. by split.
  - apply not_true_is_false in Hno. rewrite Hno in Hrow.
    injection Hrow as <-.
    change (omap id (None :: rows)) with (omap id rows).
    split; [exact IH1 | exact Hweak].
Qed.

(** X11: wherever [getDisplayData] is defined by the model, it returns the
    questions it is given, in order and with only [selectedData] replaced;
    every question gets one row per data row whose id, as a string, is
    among the selected submissions, in the order of the data, so all
    questions have equally many rows and never more than the data has; each
    row holds what its submission reads under the question's path.  It is
    defined whenever every id and every question path has a string in the
    model. *)
Theorem getDisplayData_rows (props : Props) (questions : list Question)
    (flatPaths : gmap string string) (data : list (gmap string JSValue)) :
  (forall shownQuestions,
     getDisplayData props questions flatPaths data = Some shownQuestions ->
     Forall2 (fun question shown =>
                shown = with_selectedData question (selectedData shown))
             questions shownQuestions
     /\ Forall (fun shown =>
                  map sid (selectedData shown)
                  = filter (fun i => isSelectedId props i = true)
                           (map (fun submissionData =>
                                   obj_get (plain submissionData) "_id") data)
                  /\ length (selectedData shown) <= length data
                  /\ Forall (fun row =>
                               exists submissionData key,
                                 submissionData ∈ data
                                 /\ sid row = obj_get (plain submissionData) "_id"
                                 /\ isSelectedId props (sid row) = true
                                 /\ String_of (obj_get (plain (VString <$> flatPaths))
                                                       (name shown)) = Some key
                                 /\ value row = obj_get (plain submissionData) key)
                            (selectedData shown))
               shownQuestions)
  /\ (Forall (fun submissionData =>
                is_Some (String_of (obj_get (plain submissionData) "_id")))
             data ->
      Forall (fun question =>
                is_Some (String_of (obj_get (plain (VString <$> flatPaths))
                                            (name question))))
             questions ->
      is_Some (getDisplayData props questions flatPaths data)).
Proof.
  split.
  - intros shownQuestions Hrun. unfold getDisplayData in Hrun.
    apply mapM_Some_1 in Hrun.
    induction Hrun as [| question shown questions shownQuestions Hq _ [IH1 IH2]];
      [split; [apply Forall2_nil_2 | apply Forall_nil_2] |].
    destruct (mapM _ data) as [rows |] eqn:Hrows; [| discriminate].
    injection Hq as <-.
    apply mapM_Some_1 in Hrows.
    destruct (selectedRows_spec _ _ _ _ Hrows) as [Hsids Hrowsok].
    split; [by apply Forall2_cons |].
    apply Forall_cons. split; [| exact IH2]. simpl.
    split; [exact Hsids |]. split; [| exact Hrowsok].
    rewrite <- (length_map sid), Hsids.
    etransitivity; [apply length_filter |]. by rewrite length_map.
  - intros Hids Hpaths. unfold getDisplayData. apply mapM_is_Some_2.
    eapply Forall_impl; [exact Hpaths |].
    intros question [key Hkey]. unfold compose.
    assert (Hrows : is_Some (mapM (selectedRow props
                 (obj_get (plain (VString <$> flatPaths)) (name question)))
                 data)).
    { apply mapM_is_Some_2. eapply Forall_impl; [exact Hids |].
      intros submissionData [ids Hid]. unfold compose, selectedRow.
      rewrite Hid, Hkey. by case_bool_decide. }
    destruct Hrows as [rows ->]. by eexists.
Qed.

(** The rows of the sample question, computed from the sample data. *)
Example getDisplayData_age :
  getDisplayData Examples.two_of_five [Examples.age_listed]
                 {[ "age" := "age" ]} Examples.four_submissions
  = Some [Examples.age_question].
Proof. vm_compute. reflexivity. Qed.

Lemma getDisplayData_rows_witness :
  getDisplayData Examples.two_of_five [Examples.age_listed]
                 {[ "age" := "age" ]} Examples.four_submissions
  = Some [Examples.age_question]
  /\ Forall (fun shown => length (selectedData shown) <= 4)
            [Examples.age_question].
Proof.
  assert (Hrun : getDisplayData Examples.two_of_five [Examples.age_listed]
                   {[ "age" := "age" ]} Examples.four_submissions
                 = Some [Examples.age_question]) by (vm_compute; reflexivity).
  split; [exact Hrun |].
  destruct (proj1 (getDisplayData_rows Examples.two_of_five
                     [Examples.age_listed] {[ "age" := "age" ]}
                     Examples.four_submissions) _ Hrun) as [_ Hall].
  eapply Forall_impl; [exact Hall |].
  intros shown (_ & Hlen & _). exact Hlen.
Defined.

Lemma renderDataValues_cases_witness :
  (obj_get (overridesObject (state Examples.editing_age)) "age" = VUndefined
   /\ {| sid := VNumber 11; value := VString "30" |}
        ∈ selectedData Examples.age_question
   /\ {| sid := VNumber 12; value := VUndefined |}
        ∈ selectedData Examples.age_question
   /\ shownValue Examples.t_en {| sid := VNumber 11; value := VString "30" |}
      <> shownValue Examples.t_en {| sid := VNumber 12; value := VUndefined |}
   /\ renderDataValues Examples.t_en (state Examples.editing_age) "age"
                       (selectedData Examples.age_question)
      = OriginalResponse (VString "Multiple responses"))
  /\ (overrides (state Examples.editing_age) !! "constructor" = None
      /\ inherited (overridesProto (state Examples.editing_age)) "constructor"
         <> VUndefined
      /\ renderDataValues Examples.t_en (state Examples.editing_age)
                          "constructor" []
         = UpdatedResponse (ObjectMethod "constructor")).
Proof.
  split.
  - assert (Hnone : obj_get (overridesObject (state Examples.editing_age)) "age"
                    = VUndefined) by reflexivity.
    assert (H1 : {| sid := VNumber 11; value := VString "30" |}
                 ∈ selectedData Examples.age_question) by (by left).
    assert (H2 : {| sid := VNumber 12; value := VUndefined |}
                 ∈ selectedData Examples.age_question) by (right; by left).
    assert (Hdiff : shownValue Examples.t_en
                      {| sid := VNumber 11; value := VString "30" |}
                    <> shownValue Examples.t_en
                         {| sid := VNumber 12; value := VUndefined |})
      by discriminate.
    split; [exact Hnone |]. split; [exact H1 |]. split; [exact H2 |].
    split; [exact Hdiff |].
    exact (proj2 (proj2 (proj2 (proj2 (renderDataValues_cases Examples.t_en
                     (state Examples.editing_age) "age"
                     (selectedData Examples.age_question))) Hnone))
                 _ _ H1 H2 Hdiff).
  - assert (Hnone : overrides (state Examples.editing_age) !! "constructor"
                    = None) by reflexivity.
    assert (Hinh : inherited (overridesProto (state Examples.editing_age))
                             "constructor" <> VUndefined) by discriminate.
    split; [exact Hnone |]. split; [exact Hinh |].
    exact (proj1 (proj2 (renderDataValues_cases Examples.t_en
                     (state Examples.editing_age) "constructor" []))
                 Hnone Hinh).
Defined.

Lemma unmount_unregisters_all_witness :
  (5%positive ∉ unlisteners Examples.editing_age)
  /\ exists w',
       componentWillUnmount Examples.editing_age = Return tt w'
       /\ listeners w' !! 5%positive
          = listeners Examples.editing_age !! 5%positive.
Proof.
  assert (Hfive : 5%positive ∉ unlisteners Examples.editing_age).
  { apply (bool_decide_unpack _). vm_compute. exact I. }
  split; [exact Hfive |].
  destruct (unmount_unregisters_all Examples.editing_age)
    as (w' & Hrun & _ & _ & Hother & _).
  exists w'. split; [exact Hrun | exact (Hother _ Hfive)].
Defined.

Lemma change_for_unselected_question_witness :
  selectedQuestion (state Examples.fresh_form) = None
  /\ onRowOverrideChange "age" (VString "31") Examples.fresh_form
     = TypeError Examples.fresh_form
  /\ selectedQuestion (state Examples.editing_age) = Some Examples.age_question
  /\ "height" <> name Examples.age_question
  /\ onRowOverrideChange "height" (VString "31") Examples.editing_age
     = Return tt Examples.editing_age.
Proof.
  assert (Hnone : selectedQuestion (state Examples.fresh_form) = None)
    by reflexivity.
  assert (Hq : selectedQuestion (state Examples.editing_age)
               = Some Examples.age_question) by reflexivity.
  assert (Hne : "height" <> name Examples.age_question) by discriminate.
  split; [exact Hnone |].
  split; [exact (proj1 (proj1 (change_for_unselected_question
                   Examples.t_en replace_first Examples.two_of_five
                   Examples.fresh_form "age" (VString "31")) Hnone)) |].
  split; [exact Hq |]. split; [exact Hne |].
  exact (proj2 (change_for_unselected_question
                  Examples.t_en replace_first Examples.two_of_five
                  Examples.editing_age "height" (VString "31"))
               Examples.age_question Hq Hne).
Defined.

Lemma footer_buttons_witness :
  selectedQuestion (state Examples.typing_age) = Some Examples.age_question
  /\ is_storable (selectedQuestionOverride (state Examples.typing_age)) = true
  /\ name Examples.age_question <> "__proto__"
  /\ footerDisabled
       (state (world_of (saveOverride Examples.t_en replace_first
                           Examples.two_of_five Examples.typing_age)))
     = false.
Proof.
  assert (Hq : selectedQuestion (state Examples.typing_age)
               = Some Examples.age_question) by reflexivity.
  assert (Hst : is_storable (selectedQuestionOverride
                               (state Examples.typing_age)) = true)
    by reflexivity.
  assert (Hname : name Examples.age_question <> "__proto__") by discriminate.
  split; [exact Hq |]. split; [exact Hst |]. split; [exact Hname |].
  exact (proj1 (proj2 (proj2 (proj2 (footer_buttons Examples.t_en replace_first
           Examples.two_of_five)))) _ Examples.age_question Hq Hst Hname).
Defined.

Lemma save_then_reopen_witness :
  name Examples.constructor_question <> "__proto__"
  /\ exists w',
       (selectQuestion Examples.t_en replace_first Examples.two_of_five
                       Examples.constructor_question ;;
        onRowOverrideChange "constructor" (VString "") ;;
        saveOverride Examples.t_en replace_first Examples.two_of_five ;;
        selectQuestion Examples.t_en replace_first Examples.two_of_five
                       Examples.constructor_question) Examples.fresh_form
       = Return tt w'
       /\ selectedQuestionOverride (state w') = ObjectMethod "constructor".
Proof.
  assert (Hname : name Examples.constructor_question <> "__proto__")
    by discriminate.
  split; [exact Hname |].
  destruct (proj1 (save_then_reopen Examples.t_en replace_first
                     Examples.two_of_five Examples.fresh_form
                     Examples.constructor_question (VString "") "" Hname))
    as (w' & Hrun & _ & Hval).
  exists w'. split; [exact Hrun | exact Hval].
Defined.

(** The failing input of C1, run on a new form. *)
Example proto_question_on_new_form :
  let w := run_events Examples.t_en replace_first Examples.two_of_five
             [ select Examples.proto_question;
               rowOverrideChange "__proto__" VUndefined; save ]
             Examples.fresh_form in
  Object_keys (overrides (state w)) = []
  /\ overridesProto (state w) = null_prototype
  /\ obj_get (overridesObject (state w)) "__proto__" = VUndefined
  /\ footerDisabled (state w) = true.
Proof. vm_compute. repeat split; reflexivity. Qed.

End BulkEditSpec.

(** ** The Cypress [contains] command *)

Module CypressSpec.
Import Cypress.

(** What [options.matchCase ??= false] does to the object at [l]. *)
Lemma default_matchCase_object (strict : bool) (l : positive) (h : Heap) :
  exists h',
    default_matchCase strict (Ref l) h = Some h'
    /\ get_matchCase (fields h' l)
       = (if nullish (get_matchCase (fields h l)) then Prim (VBool false)
          else get_matchCase (fields h l))
    /\ (forall k, k <> "matchCase" -> fields h' l !! k = fields h l !! k)
    /\ (forall l', l' <> l -> h' !! l' = h !! l').
Proof.
  unfold default_matchCase.
  destruct (nullish (get_matchCase (fields h l))); eexists;
    (split; [reflexivity |]); [| by auto].
  unfold fields at 1 3. rewrite lookup_insert_eq. simpl.
  split; [unfold get_matchCase; by rewrite lookup_insert_eq |].
  split; [intros k Hk; by rewrite lookup_insert_ne |].
  intros l' Hl'. by rewrite lookup_insert_ne.
Qed.

(** With the options object in the options slot nothing is shifted. *)
Lemma contains_with_options (strict : bool) (subject filter text : Value)
    (l : positive) (h : Heap) :
  typeof_value text <> "object" ->
  exists h',
    contains strict subject filter text (Ref l) h
    = Delegated {| call_subject := subject; call_filter := filter;
                   call_text := text; call_options := Ref l |} h'
    /\ default_matchCase strict (Ref l) h = Some h'.
Proof.
  intros Htext. unfold contains.
  rewrite decide_False by discriminate.
  rewrite decide_False by exact Htext.
  destruct (default_matchCase_object strict l h) as (h' & Hd & _).
  exists h'. by rewrite Hd.
Qed.

(** With an object in the text slot the arguments are shifted. *)
Lemma contains_without_filter (strict : bool) (subject filter options : Value)
    (l : positive) (h : Heap) :
  exists h0 h',
    contains strict subject filter (Ref l) options h
    = Delegated {| call_subject := subject; call_filter := undefined;
                   call_text := filter; call_options := Ref l |} h'
    /\ default_matchCase strict (Ref l) h0 = Some h'
    /\ fields h0 l = fields h l.
Proof.
  unfold contains.
  destruct (decide (options = undefined)) as [-> | Hopt];
    unfold typeof_value; rewrite decide_True by reflexivity.
  - set (h0 := <[fresh (dom h) := ∅]> h).
    destruct (default_matchCase_object strict l h0) as (h' & Hd & _).
    exists h0, h'. rewrite Hd. split; [reflexivity |]. split; [reflexivity |].
    unfold fields, h0.
    destruct (decide (fresh (dom h) = l)) as [<- | Hne].
    + rewrite lookup_insert_eq. simpl.
      assert (Hfresh : h !! fresh (dom h) = None)
        by (apply not_elem_of_dom, is_fresh).
      by rewrite Hfresh.
    + by rewrite lookup_insert_ne.
  - destruct (default_matchCase_object strict l h) as (h' & Hd & _).
    exists h, h'. by rewrite Hd.
Qed.

Lemma nullish_spec (v : Value) :
  nullish v = true <-> v = Prim VUndefined \/ v = Prim VNull.
Proof.
  split.
  - destruct v as [[| | | |] |]; simpl; try discriminate; auto.
  - intros [-> | ->]; reflexivity.
Qed.

(** C10, as the code has it: for every options object, wherever it was
    passed, [matchCase] ends up [false] exactly when it was [undefined] or
    [null] and keeps any other value the caller gave it, an explicit [true]
    included; the arguments are shifted (text takes the filter value, filter
    becomes [undefined]) when the text slot holds the options object, and
    are passed on unshifted otherwise. *)
Theorem contains_case_insensitive_by_default :
  (forall (strict : bool) (subject filter text : Value) (l : positive) (h : Heap),
     typeof_value text <> "object" ->
     exists h',
       contains strict subject filter text (Ref l) h
       = Delegated {| call_subject := subject; call_filter := filter;
                      call_text := text; call_options := Ref l |} h'
       /\ get_matchCase (fields h' l)
          = (if nullish (get_matchCase (fields h l)) then Prim (VBool false)
             else get_matchCase (fields h l)))
  /\ (forall (strict : bool) (subject filter options : Value) (l : positive)
             (h : Heap),
        exists h',
          contains strict subject filter (Ref l) options h
          = Delegated {| call_subject := subject; call_filter := undefined;
                         call_text := filter; call_options := Ref l |} h'
          /\ get_matchCase (fields h' l)
             = (if nullish (get_matchCase (fields h l)) then Prim (VBool false)
                else get_matchCase (fields h l)))
  /\ (forall v : Value,
        nullish v = true <-> v = Prim VUndefined \/ v = Prim VNull)
  /\ nullish (Prim (VBool true)) = false.
Proof.
  split; [| split; [| split; [exact nullish_spec | reflexivity]]].
  - intros strict subject filter text l h Htext.
    destruct (contains_with_options strict subject filter text l h Htext)
      as (h' & Hrun & Hd).
    destruct (default_matchCase_object strict l h) as (h'' & Hd' & Hmc & _).
    exists h'. split; [exact Hrun |]. congruence.
  - intros strict subject filter options l h.
    destruct (contains_without_filter strict subject filter options l h)
      as (h0 & h' & Hrun & Hd & Hf).
    destruct (default_matchCase_object strict l h0) as (h'' & Hd' & Hmc & _).
    exists h'. split; [exact Hrun |]. rewrite <- Hf. congruence.
Qed.

Lemma contains_case_insensitive_by_default_witness :
  typeof_value (Prim (VString "Login")) <> "object"
  /\ exists h',
       contains true undefined (Prim (VString "form")) (Prim (VString "Login"))
                (Ref 1) Examples.heap_matchCase_true
       = Delegated {| call_subject := undefined;
                      call_filter := Prim (VString "form");
                      call_text := Prim (VString "Login");
                      call_options := Ref 1 |} h'
       /\ get_matchCase (fields h' 1) = Prim (VBool true).
Proof.
  assert (Htext : typeof_value (Prim (VString "Login")) <> "object")
    by discriminate.
  split; [exact Htext |].
  destruct (proj1 contains_case_insensitive_by_default true undefined
              (Prim (VString "form")) (Prim (VString "Login")) 1%positive
              Examples.heap_matchCase_true Htext) as (h' & Hrun & Hmc).
  exists h'. split; [exact Hrun | exact Hmc].
Defined.

(** C10 as worded puts the options object in the filter slot.  With
    [{matchCase: true}] there and a string as text, nothing is shifted: the
    object is passed on as the filter and the text stays the text. *)
Lemma contains_options_in_filter_slot_not_shifted :
  contains false undefined (Ref 1) (Prim (VString "Login")) undefined
           Examples.heap_matchCase_true
  = Delegated {| call_subject := undefined; call_filter := Ref 1;
                 call_text := Prim (VString "Login");
                 call_options := Ref 2 |}
              (<[2%positive := {[ "matchCase" := Prim (VBool false) ]}]>
                 Examples.heap_matchCase_true)
  /\ ~ (forall (strict : bool) (subject filter text options : Value)
               (l : positive) (h : Heap) (c : Call) (h' : Heap),
          filter = Ref l ->
          contains strict subject filter text options h = Delegated c h' ->
          call_text c = filter /\ call_filter c = undefined).
Proof.
  assert (Hrun : contains false undefined (Ref 1) (Prim (VString "Login"))
                          undefined Examples.heap_matchCase_true
                 = Delegated {| call_subject := undefined; call_filter := Ref 1;
                                call_text := Prim (VString "Login");
                                call_options := Ref 2 |}
                     (<[2%positive := {[ "matchCase" := Prim (VBool false) ]}]>
                        Examples.heap_matchCase_true)).
  { unfold contains. rewrite decide_True by reflexivity.
    change (fresh (dom Examples.heap_matchCase_true)) with 2%positive.
    rewrite decide_False by discriminate.
    unfold default_matchCase, fields. rewrite lookup_insert_eq. reflexivity. }
  split; [exact Hrun |].
  intros Hclaim.
  destruct (Hclaim _ _ _ _ _ 1%positive _ _ _ eq_refl Hrun) as [Htext _].
  discriminate Htext.
Qed.

(** X12: a [null] where the options end up makes the command throw before
    anything is delegated: a [null] text (which [typeof] takes for an
    object, so that it replaces the options), or [null] options with a text
    that is no object. *)
Theorem contains_null_options_throws (strict : bool)
    (subject filter options : Value) (h : Heap) :
  (exists h', contains strict subject filter (Prim VNull) options h = Thrown h')
  /\ (forall text, typeof_value text <> "object" ->
        contains strict subject filter text (Prim VNull) h = Thrown h).
Proof.
  split.
  - unfold contains.
    destruct (decide (options = undefined)); simpl; eexists; reflexivity.
  - intros text Htext. unfold contains.
    rewrite decide_False by discriminate.
    by rewrite decide_False by exact Htext.
Qed.

Lemma contains_null_options_throws_witness :
  typeof_value (Prim (VString "Login")) <> "object"
  /\ contains true undefined undefined (Prim (VString "Login")) (Prim VNull)
              Examples.heap_matchCase_true
     = Thrown Examples.heap_matchCase_true.
Proof.
  assert (Htext : typeof_value (Prim (VString "Login")) <> "object")
    by discriminate.
  split; [exact Htext |].
  exact (proj2 (contains_null_options_throws true undefined undefined undefined
                  Examples.heap_matchCase_true)
               (Prim (VString "Login")) Htext).
Defined.

(** The object allocated for the default options is a new one. *)
Lemma default_options_fresh (h : Heap) (l' : positive) :
  l' ∈ dom h -> (<[fresh (dom h) := ∅]> h : Heap) !! l' = h !! l'.
Proof.
  intros Hl'. apply lookup_insert_ne. intros Heq.
  apply (is_fresh (dom h)). by rewrite Heq.
Qed.

Lemma default_options_fields (h : Heap) (l : positive) :
  fields (<[fresh (dom h) := ∅]> h) l = fields h l.
Proof.
  unfold fields. destruct (decide (fresh (dom h) = l)) as [<- | Hne].
  - rewrite lookup_insert_eq. simpl.
    assert (Hfresh : h !! fresh (dom h) = None)
      by (apply not_elem_of_dom, is_fresh).
    by rewrite Hfresh.
  - by rewrite lookup_insert_ne.
Qed.

(** What [options.matchCase ??= false] leaves alone. *)
Lemma default_matchCase_frame (strict : bool) (options : Value) (h h' : Heap) :
  default_matchCase strict options h = Some h' ->
  (forall l, options = Ref l ->
     nullish (get_matchCase (fields h' l)) = false
     /\ forall k, k <> "matchCase" -> fields h' l !! k = fields h l !! k)
  /\ (forall l', options <> Ref l' -> h' !! l' = h !! l').
Proof.
  intros Hd. split.
  - intros l ->.
    destruct (default_matchCase_object strict l h) as (h'' & Hd' & Hmc & Hk & _).
    assert (h'' = h') as -> by congruence.
    split; [| exact Hk]. rewrite Hmc.
    by destruct (nullish (get_matchCase (fields h l))) eqn:Hn.
  - intros l' Hl'. destruct options as [v | l].
    + destruct v; simpl in Hd; try discriminate;
        destruct strict; try discriminate; by injection Hd as <-.
    + destruct (default_matchCase_object strict l h) as (h'' & Hd' & _ & _ & Hother).
      assert (h'' = h') as -> by congruence.
      apply Hother. congruence.
Qed.

(** X13: whenever the command delegates, the subject is passed on as it
    is, the options object is left with a [matchCase] that is neither
    [undefined] nor [null] and with every other property as it was, and
    every other object the caller had is unchanged. *)
Theorem contains_touches_only_matchCase (strict : bool)
    (subject filter text options : Value) (h : Heap) (c : Call) (h' : Heap) :
  contains strict subject filter text options h = Delegated c h' ->
  call_subject c = subject
  /\ (forall l, call_options c = Ref l ->
        nullish (get_matchCase (fields h' l)) = false
        /\ forall k, k <> "matchCase" -> fields h' l !! k = fields h l !! k)
  /\ (forall l', l' ∈ dom h -> call_options c <> Ref l' -> h' !! l' = h !! l').
Proof.
  unfold contains.
  destruct (decide (options = undefined)) as [-> | Hopt];
    destruct (decide (typeof_value text = "object")) as [Ht | Ht];
    match goal with
    | |- match default_matchCase ?st ?o ?h1 with _ => _ end = _ -> _ =>
        destruct (default_matchCase st o h1) as [h1' |] eqn:Hd;
        [| discriminate];
        intros [= <- <-]; simpl;
        destruct (default_matchCase_frame st o h1 h1' Hd) as [Hobj Hother]
    end;
    (split; [reflexivity |]); split.
  - intros l Hl. destruct (Hobj l Hl) as [Hn Hk]. split; [exact Hn |].
    intros k Hk'. rewrite (Hk k Hk'). by rewrite default_options_fields.
  - intros l' Hl' Hne. rewrite (Hother l' Hne). by apply default_options_fresh.
  - intros l Hl. destruct (Hobj l Hl) as [Hn Hk]. split; [exact Hn |].
    intros k Hk'. rewrite (Hk k Hk'). by rewrite default_options_fields.
  - intros l' Hl' Hne. rewrite (Hother l' Hne). by apply default_options_fresh.
  - exact Hobj.
  - intros l' _ Hne. exact (Hother l' Hne).
  - exact Hobj.
  - intros l' _ Hne. exact (Hother l' Hne).
Qed.

Lemma contains_touches_only_matchCase_witness :
  contains false undefined (Ref 1) (Prim (VString "Login")) undefined
           Examples.heap_matchCase_true
  = Delegated {| call_subject := undefined; call_filter := Ref 1;
                 call_text := Prim (VString "Login");
                 call_options := Ref 2 |}
              (<[2%positive := {[ "matchCase" := Prim (VBool false) ]}]>
                 Examples.heap_matchCase_true)
  /\ (<[2%positive := {[ "matchCase" := Prim (VBool false) ]}]>
        Examples.heap_matchCase_true : Heap) !! 1%positive
     = Examples.heap_matchCase_true !! 1%positive.
Proof.
  assert (Hrun : contains false undefined (Ref 1) (Prim (VString "Login"))
                          undefined Examples.heap_matchCase_true
                 = Delegated {| call_subject := undefined; call_filter := Ref 1;
                                call_text := Prim (VString "Login");
                                call_options := Ref 2 |}
                     (<[2%positive := {[ "matchCase" := Prim (VBool false) ]}]>
                        Examples.heap_matchCase_true)).
  { unfold contains. rewrite decide_True by reflexivity.
    change (fresh (dom Examples.heap_matchCase_true)) with 2%positive.
    rewrite decide_False by discriminate.
    unfold default_matchCase, fields. rewrite lookup_insert_eq. reflexivity. }
  split; [exact Hrun |].
  destruct (contains_touches_only_matchCase _ _ _ _ _ _ _ _ Hrun)
    as (_ & _ & Hother).
  apply Hother; [| discriminate].
  apply elem_of_dom. eexists. reflexivity.
Defined.

(** X14: called without options and with a text that is no object (as in
    [cy.contains('Login')], where the text is [undefined]), the command
    delegates the filter and the text as they are, with a newly allocated
    options object that holds [matchCase: false] and nothing else. *)
Theorem contains_without_options (strict : bool) (subject filter text : Value)
    (h : Heap) :
  typeof_value text <> "object" ->
  h !! fresh (dom h) = None
  /\ contains strict subject filter text undefined h
     = Delegated {| call_subject := subject; call_filter := filter;
                    call_text := text; call_options := Ref (fresh (dom h)) |}
                 (<[fresh (dom h) := {[ "matchCase" := Prim (VBool false) ]}]> h).
Proof.
  intros Htext. split; [apply not_elem_of_dom, is_fresh |].
  unfold contains. rewrite decide_True by reflexivity.
  rewrite decide_False by exact Htext.
  unfold default_matchCase, fields. rewrite lookup_insert_eq. simpl.
  by rewrite insert_insert_eq.
Qed.

Lemma contains_without_options_witness :
  typeof_value undefined <> "object"
  /\ contains true undefined (Prim (VString "Login")) undefined undefined
              Examples.heap_matchCase_true
     = Delegated {| call_subject := undefined;
                    call_filter := Prim (VString "Login");
                    call_text := undefined;
                    call_options := Ref (fresh (dom Examples.heap_matchCase_true)) |}
                 (<[fresh (dom Examples.heap_matchCase_true)
                    := {[ "matchCase" := Prim (VBool false) ]}]>
                    Examples.heap_matchCase_true).
Proof.
  assert (Htext : typeof_value undefined <> "object") by discriminate.
  split; [exact Htext |].
  exact (proj2 (contains_without_options true undefined (Prim (VString "Login"))
                  undefined Examples.heap_matchCase_true Htext)).
Defined.

End CypressSpec.
